(** * dataviewer: a shallow embedding of [dataviewer/core.py] and [dataviewer/cli.py]

    The development follows the Python sources function by function.
    Python [str] values are sequences of Unicode code points; the state
    of the outside world (environment variables, files, the dataset hub,
    the language-model service) is an explicit record threaded through a
    state-and-exception monad, together with a trace of the observable
    calls. *)

From Stdlib Require Import ZArith NArith QArith List Bool Lia String Ascii.
From stdpp Require Import base option list gmap.

Local Open Scope N_scope.
Local Open Scope list_scope.

(** ** Python strings *)

(** A [str] is a list of code points. *)
Abbreviation str := (list N).

(** ASCII literals of the source are written [lit "..."]. *)
Definition lit (s : string) : str :=
  List.map N_of_ascii (list_ascii_of_string s).

Definition str_eqb (a b : str) : bool := bool_decide (a = b).

(** Truth value of a string: [bool(s)]. *)
Definition truthy (s : str) : bool :=
  match s with [] => false | _ :: _ => true end.

Definition nl : N := 10.
Definition backtick : N := 96.
Definition slash : N := 47.
Definition underscore : N := 95.
Definition dquote : N := 34.

(** [str.isspace] on one code point: the characters CPython lists as
    whitespace (bidirectional class WS, B or S, or category Zs). *)
Definition isspace (c : N) : bool :=
  ((9 <=? c) && (c <=? 13)) || ((28 <=? c) && (c <=? 32))
  || (c =? 133) || (c =? 160) || (c =? 5760)
  || ((8192 <=? c) && (c <=? 8202))
  || (c =? 8232) || (c =? 8233) || (c =? 8239) || (c =? 8287)
  || (c =? 12288).

Fixpoint lstrip (s : str) : str :=
  match s with
  | c :: s' => if isspace c then lstrip s' else s
  | [] => []
  end.

Definition rstrip (s : str) : str := rev (lstrip (rev s)).

(** [s.strip()] *)
Definition strip (s : str) : str := rstrip (lstrip s).

(** [s.startswith(p)] *)
Fixpoint startswith (p s : str) : bool :=
  match p, s with
  | [], _ => true
  | a :: p', b :: s' => (a =? b) && startswith p' s'
  | _ :: _, [] => false
  end.

(** [s.endswith(p)] *)
Definition endswith (p s : str) : bool := startswith (rev p) (rev s).

(** [s.replace(old, new)]: the occurrences of [old] are found from left
    to right without overlap.  [skip] counts the characters of the
    occurrence being replaced that are still to be dropped. *)
Fixpoint replace_from (old new : str) (skip : nat) (s : str) : str :=
  match s with
  | [] => []
  | c :: s' =>
      match skip with
      | S k => replace_from old new k s'
      | O =>
          if startswith old s
          then new ++ replace_from old new (Nat.pred (length old)) s'
          else c :: replace_from old new 0 s'
      end
  end.

Definition str_replace (old new s : str) : str :=
  match old with
  | [] => new ++ flat_map (fun c => c :: new) s
  | _ :: _ => replace_from old new 0 s
  end.

(** Decimal rendering of an integer, [str(n)]. *)
Definition digit_char (d : N) : N := 48 + d.

Fixpoint decimal_fuel (fuel : nat) (n : N) (acc : str) : str :=
  match fuel with
  | O => acc
  | S f =>
      let acc' := digit_char (n mod 10) :: acc in
      if n <? 10 then acc' else decimal_fuel f (n / 10) acc'
  end.

Definition str_of_N (n : N) : str := decimal_fuel (S (N.to_nat (N.log2 n))) n [].

Definition str_of_Z (z : Z) : str :=
  match z with
  | Zneg p => 45 :: str_of_N (Npos p)
  | _ => str_of_N (Z.to_N z)
  end.

Definition str_of_nat (n : nat) : str := str_of_N (N.of_nat n).

(** [sep.join(parts)] *)
Fixpoint join (sep : str) (parts : list str) : str :=
  match parts with
  | [] => []
  | [p] => p
  | p :: rest => p ++ sep ++ join sep rest
  end.

(** ** Regular expressions

    The two patterns of [_clean_code] use literal characters, the
    greedy [\w*] and the anchors [^] and [$]; the matcher below is the
    backtracking matcher of [re] restricted to these atoms. *)

Inductive re_atom : Type :=
  | RChar (c : N)     (* a literal character *)
  | RWordStar         (* \w*  (greedy) *)
  | RBol              (* ^    (no MULTILINE flag: start of the string) *)
  | REol.             (* $    (end of the string, or before a final newline) *)

Section Regex.
(** [\w] on a [str] pattern is [[a-zA-Z0-9_]] together with every
    character the Unicode database classifies as alphanumeric; the
    database is outside the repository and stays a parameter. *)
Variable uni_alnum : N -> bool.

Definition isword (c : N) : bool :=
  if c <? 128
  then ((48 <=? c) && (c <=? 57)) || ((65 <=? c) && (c <=? 90))
       || ((97 <=? c) && (c <=? 122)) || (c =? 95)
  else uni_alnum c.

(** [$] *)
Definition at_eol (s : str) : bool :=
  match s with
  | [] => true
  | [c] => c =? nl
  | _ => false
  end.

Section Star.
(** the continuation: the rest of the pattern, given the remaining
    subject and whether the position is still the start *)
Variable k : str -> bool -> option nat.

(** greedy repetition: the longest run first, then shorter ones *)
Fixpoint word_star (s : str) (at_start : bool) : option nat :=
  match s with
  | c :: s' =>
      if isword c
      then match word_star s' false with
           | Some n => Some (S n)
           | None => k s at_start
           end
      else k s at_start
  | [] => k s at_start
  end.
End Star.

(** [match_here p s at_start]: the length of the match of [p] at the
    beginning of [s], if there is one. *)
Fixpoint match_here (p : list re_atom) (s : str) (at_start : bool) : option nat :=
  match p with
  | [] => Some O
  | RBol :: p' => if at_start then match_here p' s at_start else None
  | REol :: p' => if at_eol s then match_here p' s at_start else None
  | RChar c :: p' =>
      match s with
      | x :: s' => if x =? c then S <$> match_here p' s' false else None
      | [] => None
      end
  | RWordStar :: p' => word_star (match_here p') s at_start
  end.

(** [re.sub(p, '', s)]: every non-overlapping match, found from left
    to right, is deleted.  With an empty replacement an empty match
    changes nothing. *)
Fixpoint sub_from (p : list re_atom) (at_start : bool) (skip : nat) (s : str) : str :=
  match s with
  | [] => []
  | c :: s' =>
      match skip with
      | S n => sub_from p false n s'
      | O =>
          match match_here p s at_start with
          | Some (S n) => sub_from p false n s'
          | _ => c :: sub_from p false 0 s'
          end
      end
  end.

Definition re_sub_empty (p : list re_atom) (s : str) : str := sub_from p true 0 s.

Definition fence : str := [backtick; backtick; backtick].

(** r'^```\w*\n' *)
Definition leading_fence_re : list re_atom :=
  [RBol; RChar backtick; RChar backtick; RChar backtick; RWordStar; RChar nl].

(** r'\n```$' *)
Definition trailing_fence_re : list re_atom :=
  [RChar nl; RChar backtick; RChar backtick; RChar backtick; REol].

(** [DataViewer._clean_code] *)
Definition _clean_code (code : str) : str :=
  let code := strip code in
  let code := re_sub_empty leading_fence_re code in
  let code := re_sub_empty trailing_fence_re code in
  code.
End Regex.

(** ** Exceptions

    The exceptions the program raises itself or lets through; all of
    them derive from [Exception]. *)

Inductive exn : Type :=
  | ValueError (msg : str)
  | ImportError (msg : str)
  | AttributeError (msg : str)
  | KeyError (key : str)
  | IndexError (msg : str)
  | OSError (msg : str)
  | ZeroDivisionError (msg : str)
  | LibraryError (msg : str)   (* any other Exception raised inside a library *)
  | ClickException (msg : str).

Definition is_ValueError (e : exn) : bool :=
  match e with ValueError _ => true | _ => false end.

(** ** [str.format]

    Both templates of [generate_viewer] use plain keyword fields
    [{name}] and the escapes [{{] and [}}]; the scanner below is
    [str.format] for such templates, called with keyword arguments. *)

Inductive format_mode : Type :=
  | FText                      (* copying literal text *)
  | FOpen                      (* just read a single opening brace *)
  | FField (rev_name : str)    (* inside a replacement field *)
  | FClose.                    (* just read a single closing brace *)

Definition lbrace : N := 123.
Definition rbrace : N := 125.

Fixpoint kw_lookup (kw : list (str * str)) (name : str) : option str :=
  match kw with
  | [] => None
  | (k, v) :: kw' => if str_eqb k name then Some v else kw_lookup kw' name
  end.

Definition res_map {A B} (f : A -> B) (r : exn + A) : exn + B :=
  match r with inl e => inl e | inr a => inr (f a) end.

Fixpoint format_from (kw : list (str * str)) (mode : format_mode) (s : str) : exn + str :=
  match s with
  | [] =>
      match mode with
      | FText => inr []
      | FOpen => inl (ValueError (lit "Single '{' encountered in format string"))
      | FField _ => inl (ValueError (lit "expected '}' before end of string"))
      | FClose => inl (ValueError (lit "Single '}' encountered in format string"))
      end
  | c :: s' =>
      match mode with
      | FText =>
          if c =? lbrace then format_from kw FOpen s'
          else if c =? rbrace then format_from kw FClose s'
          else res_map (cons c) (format_from kw FText s')
      | FOpen =>
          if c =? lbrace then res_map (cons lbrace) (format_from kw FText s')
          else if c =? rbrace
          then inl (IndexError
                 (lit "Replacement index 0 out of range for positional args tuple"))
          else format_from kw (FField [c]) s'
      | FField rev_name =>
          if c =? rbrace
          then match kw_lookup kw (rev rev_name) with
               | Some v => res_map (app v) (format_from kw FText s')
               | None => inl (KeyError (rev rev_name))
               end
          else format_from kw (FField (c :: rev_name)) s'
      | FClose =>
          if c =? rbrace then res_map (cons rbrace) (format_from kw FText s')
          else inl (ValueError (lit "Single '}' encountered in format string"))
      end
  end.

(** [template.format(...)] with the keyword arguments [kw] *)
Definition str_format (template : str) (kw : list (str * str)) : exn + str :=
  format_from kw FText template.

(** [base_prompt] of [generate_viewer] *)
Definition base_prompt : str :=
  concat [
    lit "Generate a Streamlit Python script to visualize instances from a dataset." ++ [nl];
    lit "        The script must define a function called 'display_instance' that takes a single parameter 'instance' " ++ [nl];
    lit "        and visualizes it appropriately." ++ [nl];
    lit "        " ++ [nl];
    lit "        Dataset Information:" ++ [nl];
    lit "        {readme}" ++ [nl];
    lit "        " ++ [nl];
    lit "        The instance has these features and types: {features}" ++ [nl];
    lit "        " ++ [nl];
    lit "        Here's an example instance from the dataset:" ++ [nl];
    lit "        {example}" ++ [nl];
    lit "        " ++ [nl];
    lit "        Requirements:" ++ [nl];
    lit "        - Create a function called 'display_instance(instance)' that handles the visualization" ++ [nl];
    lit "        - Display all fields appropriately (text, images, audio, etc.)" ++ [nl];
    lit "        - Make it visually appealing with proper headers and sections" ++ [nl];
    lit "        - Handle all data types properly" ++ [nl];
    lit "        - Use st.columns where appropriate for layout" ++ [nl];
    lit "        - Don't include any navigation controls (they're handled elsewhere)" ++ [nl];
    lit "        - Do not include markdown code block markers (```)" ++ [nl];
    lit "        - Consider the dataset's purpose and content when designing the visualization" ++ [nl];
    lit "        - Use the example instance as a guide for formatting and layout" ++ [nl];
    lit "        {extra_requirements}" ++ [nl];
    lit "        " ++ [nl];
    lit "        The function will be called with the current instance at the end of the script." ++ [nl];
    lit "        Only respond with the raw Python code, no explanations."
  ].

(** [system_message] of [generate_viewer] *)
Definition system_message : str :=
  concat [
    lit "You are a Python expert specializing in Streamlit and data visualization." ++ [nl];
    lit "        Create visualizations that are appropriate for the dataset's purpose and content." ++ [nl];
    lit "        Provide only raw Python code without markdown formatting."
  ].

(** [viewer_template] of [generate_viewer] *)
Definition viewer_template : str :=
  concat [
    [nl];
    lit "import streamlit as st" ++ [nl];
    lit "import random" ++ [nl];
    lit "from datasets import load_dataset" ++ [nl];
    [nl];
    lit "# Cache the dataset loading" ++ [nl];
    lit "@st.cache_resource" ++ [nl];
    lit "def get_dataset():" ++ [nl];
    lit "    return load_dataset(" ++ [dquote] ++ lit "{dataset_name}" ++ [dquote] ++ lit ")" ++ [nl];
    [nl];
    lit "# Get the dataset" ++ [nl];
    lit "dataset = get_dataset()" ++ [nl];
    lit "split = " ++ [dquote] ++ lit "{split}" ++ [dquote] ++ [nl];
    lit "data = dataset[split]" ++ [nl];
    [nl];
    lit "# Session state for index tracking" ++ [nl];
    lit "if 'current_index' not in st.session_state:" ++ [nl];
    lit "    st.session_state.current_index = 0" ++ [nl];
    [nl];
    lit "# Navigation controls" ++ [nl];
    lit "st.title(" ++ [dquote] ++ lit "Dataset Viewer: {dataset_name}" ++ [dquote] ++ lit ")" ++ [nl];
    [nl];
    lit "col1, col2, col3, col4 = st.columns([1, 1, 1, 2])" ++ [nl];
    [nl];
    lit "with col1:" ++ [nl];
    lit "    if st.button(" ++ [dquote] ++ [8218] ++ [168] ++ [214] ++ [212] ++ [8719] ++ [232] ++ lit " Previous" ++ [dquote] ++ lit "):" ++ [nl];
    lit "        st.session_state.current_index = (st.session_state.current_index - 1) % len(data)" ++ [nl];
    [nl];
    lit "with col2:" ++ [nl];
    lit "    if st.button(" ++ [dquote] ++ lit "Random " ++ [63743] ++ [252] ++ [233] ++ [8804] ++ [dquote] ++ lit "):" ++ [nl];
    lit "        st.session_state.current_index = random.randint(0, len(data) - 1)" ++ [nl];
    [nl];
    lit "with col3:" ++ [nl];
    lit "    if st.button(" ++ [dquote] ++ lit "Next " ++ [8218] ++ [251] ++ [176] ++ [212] ++ [8719] ++ [232] ++ [dquote] ++ lit "):" ++ [nl];
    lit "        st.session_state.current_index = (st.session_state.current_index + 1) % len(data)" ++ [nl];
    [nl];
    lit "with col4:" ++ [nl];
    lit "    st.session_state.current_index = st.number_input(" ++ [nl];
    lit "        " ++ [dquote] ++ lit "Go to index" ++ [dquote] ++ lit ", " ++ [nl];
    lit "        min_value=0, " ++ [nl];
    lit "        max_value=len(data) - 1, " ++ [nl];
    lit "        value=st.session_state.current_index" ++ [nl];
    lit "    )" ++ [nl];
    [nl];
    lit "st.write(f" ++ [dquote] ++ lit "Showing instance {{st.session_state.current_index}} of {{len(data) - 1}}" ++ [dquote] ++ lit ")" ++ [nl];
    [nl];
    lit "# Get current instance" ++ [nl];
    lit "instance = data[st.session_state.current_index]" ++ [nl];
    [nl];
    lit "{viewer_code}" ++ [nl];
    [nl];
    lit "# Always call display_instance with current instance" ++ [nl];
    lit "display_instance(instance)" ++ [nl]
  ].


(** ** Dataset values *)

#[local] Set Warnings "-register-all".

(** A feature value of a dataset row.  Rows come from the [datasets]
    library, whose mappings have string keys.  A float is kept with its
    printed form; any other object (an image, an audio clip, [None])
    is kept with the printed form of its type and the type's name. *)
Inductive value : Type :=
  | VStr (s : str)
  | VInt (z : Z)
  | VFloat (shown : str)
  | VBool (b : bool)
  | VList (items : list value)
  | VTuple (items : list value)
  | VDict (items : list (str * value))
  | VOther (type_shown : str) (type_name : str).

(** one row: an ordered mapping from feature name to value *)
Definition instance : Type := list (str * value).

(** a [DatasetDict]: the named splits and their rows *)
Definition DatasetDict : Type := list (str * list instance).

(** [str(type(v))] *)
Definition type_str (v : value) : str :=
  match v with
  | VStr _ => lit "<class 'str'>"
  | VInt _ => lit "<class 'int'>"
  | VFloat _ => lit "<class 'float'>"
  | VBool _ => lit "<class 'bool'>"
  | VList _ => lit "<class 'list'>"
  | VTuple _ => lit "<class 'tuple'>"
  | VDict _ => lit "<class 'dict'>"
  | VOther shown _ => shown
  end.

(** [format_value], the local function of [generate_viewer] *)
Definition format_value (v : value) : str :=
  match v with
  | VStr s => s
  | VInt z => str_of_Z z
  | VFloat shown => shown
  | VBool b => if b then lit "True" else lit "False"
  | VList items | VTuple items =>
      lit "[list with " ++ str_of_nat (length items) ++ lit " elements]"
  | VDict items =>
      lit "{dict with keys: " ++ join (lit ", ") (List.map fst items) ++ lit "}"
  | VOther _ name => lit "[" ++ name ++ lit "]"
  end.

(** [{k: str(type(v)) for k, v in sample.items()}] *)
Definition features_of (sample : instance) : list (str * str) :=
  List.map (fun kv => (fst kv, type_str (snd kv))) sample.

(** [{k: format_value(v) for k, v in sample.items()}] *)
Definition example_of (sample : instance) : list (str * str) :=
  List.map (fun kv => (fst kv, format_value (snd kv))) sample.

Fixpoint assoc {A} (k : str) (l : list (str * A)) : option A :=
  match l with
  | [] => None
  | (k', a) :: l' => if str_eqb k' k then Some a else assoc k l'
  end.

(** ** The outside world *)

Inductive backend : Type := Anthropic | OpenAI.

(** [llm.py]: the two implementations of [LLMInterface] *)
Inductive LLM : Type :=
  | Claude (api_key : str)
  | GPT4 (api_key : str).

Inductive event : Type :=
  | EvLoadDataset (url : str)
  | EvHubDownload (repo filename : str)
  | EvReadText (path : str)
  | EvExists (path : str)
  | EvPrint (line : str)
  | EvSecho (text fg : str)
  | EvGenerateCode (b : backend) (prompt system : str)
  | EvCallback
  | EvOpenWrite (path : str)
  | EvWrite (path content : str)
  | EvSystem (command : str)
  | EvSpinnerStart (message done_message : str)
  | EvSpinnerJoin.

(** What a call can read and change outside the program. *)
Record World : Type := mkWorld {
  environ : gmap str str;                 (* os.environ *)
  files : gmap str str;                   (* the files, by path *)
  write_refused : str -> bool;            (* paths that cannot be opened for writing *)
  write_failure : str -> str -> option (exn * str);
      (* writing a text to the opened file at a path, or closing it, fails:
         the exception, and what the file is left with *)
  anthropic_installed : bool;             (* llm.py: Anthropic is not None *)
  openai_installed : bool;                (* llm.py: OpenAI is not None *)
  hub_importable : bool;                  (* import huggingface_hub succeeds *)
  hub_load_dataset : str -> exn + DatasetDict;        (* datasets.load_dataset *)
  hub_download : str -> str -> exn + str;             (* hf_hub_download *)
  llm_service : backend -> str -> str -> str -> exn + option str;
      (* the vendor's answer for an API key, a prompt and a system message *)
  spinner_done : bool                     (* echo_spinner.done *)
}.

Definition with_files (f : gmap str str) (w : World) : World :=
  mkWorld (environ w) f (write_refused w) (write_failure w) (anthropic_installed w)
    (openai_installed w) (hub_importable w) (hub_load_dataset w)
    (hub_download w) (llm_service w) (spinner_done w).

Definition with_spinner_done (b : bool) (w : World) : World :=
  mkWorld (environ w) (files w) (write_refused w) (write_failure w) (anthropic_installed w)
    (openai_installed w) (hub_importable w) (hub_load_dataset w)
    (hub_download w) (llm_service w) b.

(** The world together with the calls made so far, oldest first.  The
    trace is a record of history: no operation removes an entry. *)
Record Env : Type := mkEnv { world : World; trace : list event }.

(** ** The state-and-exception monad *)

Inductive outcome (A : Type) : Type :=
  | Ok (a : A)
  | Raise (e : exn)
  | Hang.                      (* the call never returns *)
Arguments Ok {A} a.
Arguments Raise {A} e.
Arguments Hang {A}.

Definition ST (S A : Type) : Type := S -> outcome A * S.

Definition ret {S A} (a : A) : ST S A := fun s => (Ok a, s).

Definition bind {S A B} (m : ST S A) (k : A -> ST S B) : ST S B :=
  fun s =>
    match m s with
    | (Ok a, s') => k a s'
    | (Raise e, s') => (Raise e, s')
    | (Hang, s') => (Hang, s')
    end.

Notation "x <- c1 ;; c2" := (bind c1 (fun x => c2))
  (at level 100, c1 at next level, right associativity).
Notation "c1 ;;; c2" := (bind c1 (fun _ => c2))
  (at level 100, right associativity).

Definition raise {S A} (e : exn) : ST S A := fun s => (Raise e, s).
Definition hang {S A} : ST S A := fun s => (Hang, s).
Definition modify {S} (f : S -> S) : ST S unit := fun s => (Ok tt, f s).

(** [try: body  except Exception as e: handler(e)]; every modelled
    exception derives from [Exception]. *)
Definition try_except {S A} (body : ST S A) (handler : exn -> ST S A) : ST S A :=
  fun s =>
    match body s with
    | (Raise e, s') => handler e s'
    | r => r
    end.

Definition of_result {S A} (r : exn + A) : ST S A :=
  match r with inl e => raise e | inr a => ret a end.

(** computations on the outside world *)
Definition IO (A : Type) : Type := ST Env A.

Definition get_world : IO World := fun e => (Ok (world e), e).

Definition modify_world (f : World -> World) : IO unit :=
  modify (fun e => mkEnv (f (world e)) (trace e)).

Definition log (ev : event) : IO unit :=
  modify (fun e => mkEnv (world e) (trace e ++ [ev])).

(** A callable handed to the viewer acts on the world. *)
Definition callable : Type := World -> outcome unit * World.

Definition invoke (f : callable) : IO unit :=
  log EvCallback ;;;
  (fun e => let (r, w') := f (world e) in (r, mkEnv w' (trace e))).

(** ** The [DataViewer] object *)

Record DataViewer : Type := mkDataViewer {
  data : option DatasetDict;
  dataset_name : option str;
  llm : option LLM;
  progress_callback : option callable;
  dataset_readme : option (option str)
      (* [None]: the attribute was never assigned; [Some None]: it is [None] *)
}.

(** the object a method runs on, and the world around it *)
Record State : Type := mkState { self : DataViewer; env : Env }.

Definition M (A : Type) : Type := ST State A.

Definition lift {A} (m : IO A) : M A :=
  fun s => let (r, e') := m (env s) in (r, mkState (self s) e').

Definition get_self : M DataViewer := fun s => (Ok (self s), s).
Definition set_self (f : DataViewer -> DataViewer) : M unit :=
  modify (fun s => mkState (f (self s)) (env s)).

(** calling a method of a viewer held in a local variable *)
Definition call {A} (dv : DataViewer) (m : M A) : IO (A * DataViewer) :=
  fun e =>
    match m (mkState dv e) with
    | (Ok a, s') => (Ok (a, self s'), env s')
    | (Raise x, s') => (Raise x, env s')
    | (Hang, s') => (Hang, env s')
    end.

Definition set_data (d : option DatasetDict) (dv : DataViewer) : DataViewer :=
  mkDataViewer d (dataset_name dv) (llm dv) (progress_callback dv) (dataset_readme dv).
Definition set_dataset_name (n : option str) (dv : DataViewer) : DataViewer :=
  mkDataViewer (data dv) n (llm dv) (progress_callback dv) (dataset_readme dv).
Definition set_callback (c : option callable) (dv : DataViewer) : DataViewer :=
  mkDataViewer (data dv) (dataset_name dv) (llm dv) c (dataset_readme dv).
Definition set_readme (r : option str) (dv : DataViewer) : DataViewer :=
  mkDataViewer (data dv) (dataset_name dv) (llm dv) (progress_callback dv) (Some r).

(** ** Library calls *)

(** [os.getenv(name)] *)
Definition os_getenv (name : str) : IO (option str) :=
  w <- get_world ;;
  ret (environ w !! name).

(** [os.path.exists(path)] *)
Definition os_path_exists (path : str) : IO bool :=
  log (EvExists path) ;;;
  w <- get_world ;;
  ret (bool_decide (is_Some (files w !! path))).

(** [print(line)] *)
Definition print (line : str) : IO unit := log (EvPrint line).

(** [click.secho(text, fg=fg)] *)
Definition secho (text fg : str) : IO unit := log (EvSecho text fg).

(** [datasets.load_dataset(url)] *)
Definition load_dataset_ext (url : str) : IO DatasetDict :=
  log (EvLoadDataset url) ;;;
  w <- get_world ;;
  of_result (hub_load_dataset w url).

(** [from huggingface_hub import hf_hub_download] *)
Definition import_hub : IO unit :=
  w <- get_world ;;
  if hub_importable w then ret tt
  else raise (ImportError (lit "No module named 'huggingface_hub'")).

(** [hf_hub_download(repo_id=repo, filename=filename, repo_type="dataset")] *)
Definition hf_hub_download (repo filename : str) : IO str :=
  log (EvHubDownload repo filename) ;;;
  w <- get_world ;;
  of_result (hub_download w repo filename).

(** [Path(path).read_text()] *)
Definition read_text (path : str) : IO str :=
  log (EvReadText path) ;;;
  w <- get_world ;;
  match files w !! path with
  | Some content => ret content
  | None => raise (OSError (lit "[Errno 2] No such file or directory"))
  end.

(** [with open(path, "w") as f: f.write(content)]: the file is opened,
    and so emptied, before the content is computed.  The write, or the
    close that ends the block, can still fail on the opened file (the
    text cannot be encoded, the disk is full): the exception leaves the
    block and the file keeps what the failed write left. *)
Definition write_file (path : str) (content : exn + str) : IO unit :=
  w <- get_world ;;
  if write_refused w path
  then raise (OSError (lit "cannot open file for writing"))
  else
    log (EvOpenWrite path) ;;;
    modify_world (fun w => with_files (<[path := []]> (files w)) w) ;;;
    text <- of_result content ;;
    match write_failure w path text with
    | Some (e, remains) =>
        modify_world (fun w => with_files (<[path := remains]> (files w)) w) ;;;
        raise e
    | None =>
        log (EvWrite path text) ;;;
        modify_world (fun w => with_files (<[path := text]> (files w)) w)
    end.

(** [os.system(command)] *)
Definition os_system (command : str) : IO unit := log (EvSystem command).

(** [llm.py]: the constructors fail when the vendor's package is absent *)
Definition Claude_init (api_key : str) : IO LLM :=
  w <- get_world ;;
  if anthropic_installed w then ret (Claude api_key)
  else raise (ImportError
    (lit "Anthropic is not installed. Please install it using 'pip install anthropic'.")).

Definition GPT4_init (api_key : str) : IO LLM :=
  w <- get_world ;;
  if openai_installed w then ret (GPT4 api_key)
  else raise (ImportError
    (lit "OpenAI is not installed. Please install it using 'pip install openai'.")).

Definition backend_of (m : LLM) : backend :=
  match m with Claude _ => Anthropic | GPT4 _ => OpenAI end.

Definition api_key_of (m : LLM) : str :=
  match m with Claude key | GPT4 key => key end.

(** [LLMInterface.generate_code(prompt, system_message)]: both
    implementations send the two texts to their vendor and return the
    text of the answer. *)
Definition generate_code (m : LLM) (prompt system : str) : IO (option str) :=
  log (EvGenerateCode (backend_of m) prompt system) ;;;
  w <- get_world ;;
  of_result (llm_service w (backend_of m) (api_key_of m) prompt system).

(** the number of calls of [generate_code] in a trace *)
Definition model_calls (t : list event) : nat :=
  length (List.filter (fun ev => match ev with EvGenerateCode _ _ _ => true | _ => false end) t).

(** the paths written to in a trace *)
Definition written_paths (t : list event) : list str :=
  flat_map (fun ev => match ev with
                      | EvOpenWrite p => [p]
                      | EvWrite p _ => [p]
                      | _ => []
                      end) t.

(** ** [core.py] and [cli.py] *)

Definition opt_truthy (o : option str) : bool :=
  match o with Some s => truthy s | None => false end.

(** [self.data[split][0]] *)
Definition first_instance (d : DatasetDict) (split : str) : exn + instance :=
  match assoc split d with
  | None => inl (KeyError split)
  | Some [] => inl (IndexError (lit "Invalid key: 0 is out of bounds for size 0"))
  | Some (row :: _) => inr row
  end.

(** [DataViewer.__init__] *)
Definition DataViewer_init (model : option LLM) : DataViewer :=
  mkDataViewer None None model None None.

(** [DataViewer.from_environment] *)
Definition from_environment : IO DataViewer :=
  anthropic <- os_getenv (lit "ANTHROPIC_API_KEY") ;;
  if opt_truthy anthropic then
    key <- os_getenv (lit "ANTHROPIC_API_KEY") ;;
    model <- Claude_init (default [] key) ;;
    ret (DataViewer_init (Some model))
  else
    openai <- os_getenv (lit "OPENAI_API_KEY") ;;
    if opt_truthy openai then
      key <- os_getenv (lit "OPENAI_API_KEY") ;;
      model <- GPT4_init (default [] key) ;;
      ret (DataViewer_init (Some model))
    else
      raise (ValueError
        (lit "No API keys found. Please set either ANTHROPIC_API_KEY "
         ++ lit "or OPENAI_API_KEY environment variable.")).

(** [DataViewer.load_dataset] *)
Definition load_dataset (dataset_url : str) : M unit :=
  set_self (set_dataset_name (Some dataset_url)) ;;;
  d <- lift (load_dataset_ext dataset_url) ;;
  set_self (set_data (Some d)) ;;;
  try_except
    (lift import_hub ;;;
     readme_path <-
       try_except
         (p <- lift (hf_hub_download dataset_url (lit "README.md")) ;; ret (Some p))
         (fun _ =>
            try_except
              (p <- lift (hf_hub_download dataset_url (lit "dataset_card.md")) ;;
               ret (Some p))
              (fun _ => ret None)) ;;
     if opt_truthy readme_path then
       text <- lift (read_text (default [] readme_path)) ;;
       set_self (set_readme (Some text))
     else
       set_self (set_readme None))
    (fun _ => set_self (set_readme None)).

(** [DataViewer._get_viewer_path] *)
Definition _get_viewer_path (split : str) : M str :=
  dv <- get_self ;;
  match dataset_name dv with
  | Some name =>
      ret (lit "view_" ++ str_replace [slash] [underscore] name
           ++ lit "_" ++ split ++ lit ".py")
  | None => raise (AttributeError (lit "'NoneType' object has no attribute 'replace'"))
  end.

(** [DataViewer.set_progress_callback] *)
Definition set_progress_callback (callback : callable) : M unit :=
  set_self (set_callback (Some callback)).

(** [str(x)] of an optional string *)
Definition str_of_opt (o : option str) : str := default (lit "None") o.

Section Program.
(** [str.isalnum] beyond ASCII, [repr] of a string and
    [json.dumps(d, indent=2)] of a mapping from strings to strings
    belong to the Python runtime. *)
Variable uni_alnum : N -> bool.
Variable py_repr : str -> str.
Variable json_dumps : list (str * str) -> str.

(** [str(e)] *)
Definition exn_str (e : exn) : str :=
  match e with
  | KeyError key => py_repr key
  | ValueError msg | ImportError msg | AttributeError msg | IndexError msg
  | OSError msg | ZeroDivisionError msg | LibraryError msg
  | ClickException msg => msg
  end.

(** [generate_viewer], from [base_prompt.format] to the prompt *)
Definition make_prompt (readme : option str) (sample : instance) (extra_prompt : str)
  : exn + str :=
  let features := features_of sample in
  let example_instance := example_of sample in
  let readme_section :=
    if opt_truthy readme
    then lit "Dataset README:" ++ [nl] ++ str_of_opt readme
    else lit "No README available for this dataset." in
  str_format base_prompt
    [ (lit "features", json_dumps features);
      (lit "readme", readme_section);
      (lit "example", json_dumps example_instance);
      (lit "extra_requirements",
         if truthy extra_prompt
         then [nl] ++ lit "Additional requirements:" ++ [nl] ++ extra_prompt
         else []) ].

(** [DataViewer.generate_viewer] *)
Definition generate_viewer (split extra_prompt : str) (force : bool) : M str :=
  dv <- get_self ;;
  match data dv with
  | None => raise (ValueError (lit "No dataset loaded"))
  | Some d =>
  match llm dv with
  | None => raise (ValueError (lit "No language model configured"))
  | Some model =>
      viewer_path <- _get_viewer_path split ;;
      found <- lift (os_path_exists viewer_path) ;;
      if found && negb force then
        lift (print (lit "Using existing viewer at " ++ viewer_path)) ;;;
        lift (print (lit "Use --force to regenerate the viewer")) ;;;
        ret viewer_path
      else
        sample <- of_result (first_instance d split) ;;
        readme <-
          match dataset_readme dv with
          | Some r => ret r
          | None => raise (AttributeError
              (lit "'DataViewer' object has no attribute 'dataset_readme'"))
          end ;;
        prompt <- of_result (make_prompt readme sample extra_prompt) ;;
        answer <- lift (generate_code model prompt system_message) ;;
        viewer_code <-
          match answer with
          | Some code => ret (_clean_code uni_alnum code)
          | None => raise (AttributeError
              (lit "'NoneType' object has no attribute 'strip'"))
          end ;;
        match progress_callback dv with
        | Some callback => lift (invoke callback)
        | None => ret tt
        end ;;;
        lift (write_file viewer_path
                (str_format viewer_template
                   [ (lit "dataset_name", str_of_opt (dataset_name dv));
                     (lit "split", split);
                     (lit "viewer_code", viewer_code) ])) ;;;
        ret viewer_path
  end
  end.

(** [DataViewer.run_viewer] *)
Definition run_viewer (split extra_prompt : str) (force : bool) : M unit :=
  viewer_path <- generate_viewer split extra_prompt force ;;
  lift (os_system (lit "streamlit run " ++ viewer_path)).

(** [cli.echo_spinner]: the background thread repaints a status line
    until [echo_spinner.done] is set; only its start and its end are
    traced. *)
Definition echo_spinner (message done_message : str) : IO unit :=
  modify_world (with_spinner_done false) ;;;
  log (EvSpinnerStart message done_message).

(** [spinner_thread.join()] returns once the thread has seen the flag *)
Definition spinner_join : IO unit :=
  w <- get_world ;;
  if spinner_done w then log EvSpinnerJoin else hang.

(** [progress_done], the callback of [main] *)
Definition progress_done : callable := fun w => (Ok tt, with_spinner_done true w).

(** [cli.main] *)
Definition main (dataset_url split prompt : str) (force : bool) : IO unit :=
  try_except
    (secho ([nl; 128295] ++ lit " Setting up DataViewer for " ++ dataset_url)
           (lit "green") ;;;
     viewer <- from_environment ;;
     r <- call viewer
       (set_progress_callback progress_done ;;;
        lift (secho ([nl; 128218] ++ lit " Loading dataset...") (lit "blue")) ;;;
        load_dataset dataset_url ;;;
        viewer_path <- _get_viewer_path split ;;
        regenerate <-
          (if force then ret true
           else found <- lift (os_path_exists viewer_path) ;; ret (negb found)) ;;
        (if (regenerate : bool) then
           lift (secho ([nl; 129302] ++ lit " Generating Streamlit viewer...")
                       (lit "yellow")) ;;;
           lift (echo_spinner
                   (lit "Waiting for AI to generate visualization code")
                   ([10024] ++ lit " Viewer generated successfully!")) ;;;
           generate_viewer split prompt force ;;;
           lift spinner_join
         else
           lift (secho ([nl; 128203] ++ lit " Using cached viewer") (lit "green"))) ;;;
        lift (secho ([nl; 128640] ++ lit " Launching Streamlit..." ++ [nl])
                    (lit "bright_green")) ;;;
        run_viewer split prompt force) ;;
     ret tt)
    (fun e =>
       if is_ValueError e
       then raise (ClickException (exn_str e))
       else raise (ClickException (lit "Error: " ++ exn_str e))).
End Program.

(** ** The navigation controls of the generated viewer

    The statements of [viewer_template] that move
    [st.session_state.current_index]; [n] is [len(data)]. *)

(** [a % n] on integers: the result has the sign of [n] *)
Definition py_mod (a n : Z) : exn + Z :=
  if (n =? 0)%Z
  then inl (ZeroDivisionError (lit "integer division or modulo by zero"))
  else inr (a mod n)%Z.

(** A finite uniform distribution is given by the list of its equally
    likely outcomes. *)
Definition uniform : Type := list Z.

Definition probability (d : uniform) (x : Z) : Q :=
  Z.of_nat (count_occ Z.eq_dec d x) # Pos.of_nat (length d).

(** [random.randint(a, b)]: a uniform choice among [a], ..., [b] *)
Definition randint (a b : Z) : exn + uniform :=
  if (b <? a)%Z
  then inl (ValueError (lit "empty range for randrange()"))
  else inr (List.map (fun i => (a + Z.of_nat i)%Z) (seq 0 (Z.to_nat (b - a + 1)))).

(** [st.number_input(label, min_value, max_value, value)]: the widget
    refuses a default outside its bounds, shows the default until the
    user enters a number, and keeps what the user enters within the
    bounds. *)
Definition number_input (min_value max_value value : Z) (entered : option Z) : exn + Z :=
  if ((value <? min_value) || (max_value <? value))%Z
  then inl (LibraryError (lit "The default value is outside the bounds of the widget"))
  else match entered with
       | None => inr value
       | Some x => inr (Z.max min_value (Z.min max_value x))
       end.

(** [if st.button("Previous"): current_index = (current_index - 1) % len(data)] *)
Definition on_previous (current_index n : Z) : exn + Z :=
  py_mod (current_index - 1) n.

(** [if st.button("Random"): current_index = random.randint(0, len(data) - 1)] *)
Definition on_random (n : Z) : exn + uniform :=
  randint 0 (n - 1).

(** [if st.button("Next"): current_index = (current_index + 1) % len(data)] *)
Definition on_next (current_index n : Z) : exn + Z :=
  py_mod (current_index + 1) n.

(** [current_index = st.number_input("Go to index", min_value=0,
    max_value=len(data) - 1, value=current_index)] *)
Definition go_to_index (current_index n : Z) (entered : option Z) : exn + Z :=
  number_input 0 (n - 1) current_index entered.

(** ** Sample data *)

(** stand-ins for the runtime's tables *)
Definition ascii_alnum : N -> bool := fun _ => false.
Definition quote_repr (s : str) : str := lit "'" ++ s ++ lit "'".
Definition flat_json (d : list (str * str)) : str :=
  lit "{" ++ join (lit ", ") (List.map (fun kv => fst kv ++ lit ": " ++ snd kv) d) ++ lit "}".

Definition mnist_row : instance :=
  [ (lit "image", VOther (lit "<class 'PIL.PngImagePlugin.PngImageFile'>")
                         (lit "PngImageFile"));
    (lit "label", VInt 5) ].

(** a dataset with a [train] split of one row and an empty [test] split *)
Definition mnist : DatasetDict :=
  [ (lit "train", [ mnist_row ]); (lit "test", []) ].

Definition sample_answer : str :=
  lit "```python" ++ [nl] ++ lit "def display_instance(instance):" ++ [nl]
  ++ lit "    st.write(instance)" ++ [nl] ++ lit "```".

(** a world in which viewers for two splits of [mnist] were written earlier *)
Definition sample_world : World :=
  {| environ := {[ lit "OPENAI_API_KEY" := lit "sk-1" ]};
     files := <[ lit "view_mnist_train.py" := lit "# old viewer" ]>
                {[ lit "view_mnist_validation.py" := lit "# old viewer" ]};
     write_refused := fun _ => false;
     write_failure := fun _ _ => None;
     anthropic_installed := true;
     openai_installed := true;
     hub_importable := true;
     hub_load_dataset := fun url =>
       if str_eqb url (lit "mnist") then inr mnist
       else inl (LibraryError (lit "dataset not found"));
     hub_download := fun _ _ => inl (LibraryError (lit "404"));
     llm_service := fun _ _ _ _ => inr (Some sample_answer);
     spinner_done := false |}.

Definition sample_viewer : DataViewer :=
  {| data := Some mnist;
     dataset_name := Some (lit "mnist");
     llm := Some (GPT4 (lit "sk-1"));
     progress_callback := None;
     dataset_readme := Some None |}.

Definition sample_state : State := mkState sample_viewer (mkEnv sample_world []).

(** a viewer whose dataset could not be loaded: [load_dataset] has set
    the name, and the table is still missing *)
Definition unloaded_viewer : DataViewer :=
  {| data := None;
     dataset_name := Some (lit "mnist");
     llm := Some (GPT4 (lit "sk-1"));
     progress_callback := None;
     dataset_readme := None |}.

Definition unloaded_state : State := mkState unloaded_viewer (mkEnv sample_world []).

Definition sample_prompt : str :=
  match make_prompt flat_json None mnist_row [] with
  | inr prompt => prompt
  | inl _ => []
  end.

(** an environment with both keys *)
Definition both_keys_world : World :=
  {| environ := <[ lit "ANTHROPIC_API_KEY" := lit "sk-ant-1" ]>
                  {[ lit "OPENAI_API_KEY" := lit "sk-1" ]};
     files := ∅;
     write_refused := fun _ => false;
     write_failure := fun _ _ => None;
     anthropic_installed := true;
     openai_installed := true;
     hub_importable := true;
     hub_load_dataset := fun _ => inl (LibraryError (lit "dataset not found"));
     hub_download := fun _ _ => inl (LibraryError (lit "404"));
     llm_service := fun _ _ _ _ => inr (Some sample_answer);
     spinner_done := false |}.

(** an environment with an empty Anthropic key and an OpenAI key *)
Definition empty_anthropic_world : World :=
  {| environ := <[ lit "ANTHROPIC_API_KEY" := [] ]> {[ lit "OPENAI_API_KEY" := lit "sk-1" ]};
     files := ∅;
     write_refused := fun _ => false;
     write_failure := fun _ _ => None;
     anthropic_installed := true;
     openai_installed := true;
     hub_importable := true;
     hub_load_dataset := fun _ => inl (LibraryError (lit "dataset not found"));
     hub_download := fun _ _ => inl (LibraryError (lit "404"));
     llm_service := fun _ _ _ _ => inr (Some sample_answer);
     spinner_done := false |}.

(** the sample world before any viewer was written *)
Definition fresh_world : World := with_files ∅ sample_world.

(** a world in which the model service is down *)
Definition failing_model_world : World :=
  {| environ := {[ lit "OPENAI_API_KEY" := lit "sk-1" ]};
     files := ∅;
     write_refused := fun _ => false;
     write_failure := fun _ _ => None;
     anthropic_installed := true;
     openai_installed := true;
     hub_importable := true;
     hub_load_dataset := fun _ => inl (LibraryError (lit "dataset not found"));
     hub_download := fun _ _ => inl (LibraryError (lit "404"));
     llm_service := fun _ _ _ _ => inl (LibraryError (lit "service unavailable"));
     spinner_done := false |}.

(** a world whose directory is read-only *)
Definition read_only_world : World :=
  {| environ := {[ lit "OPENAI_API_KEY" := lit "sk-1" ]};
     files := ∅;
     write_refused := fun _ => true;
     write_failure := fun _ _ => None;
     anthropic_installed := true;
     openai_installed := true;
     hub_importable := true;
     hub_load_dataset := fun _ => inl (LibraryError (lit "dataset not found"));
     hub_download := fun _ _ => inl (LibraryError (lit "404"));
     llm_service := fun _ _ _ _ => inr (Some sample_answer);
     spinner_done := false |}.

(** both keys are set, and the [anthropic] package is not installed *)
Definition no_anthropic_world : World :=
  {| environ := <[ lit "ANTHROPIC_API_KEY" := lit "sk-ant-1" ]>
                  {[ lit "OPENAI_API_KEY" := lit "sk-1" ]};
     files := ∅;
     write_refused := fun _ => false;
     write_failure := fun _ _ => None;
     anthropic_installed := false;
     openai_installed := true;
     hub_importable := true;
     hub_load_dataset := fun _ => inl (LibraryError (lit "dataset not found"));
     hub_download := fun _ _ => inl (LibraryError (lit "404"));
     llm_service := fun _ _ _ _ => inr (Some sample_answer);
     spinner_done := false |}.

(** a world whose encoding cannot take the characters of the viewer
    template: an earlier viewer is in place, and every write to an
    opened file fails with the encoding error, a [ValueError], and
    leaves the file empty *)
Definition unencodable_world : World :=
  {| environ := {[ lit "OPENAI_API_KEY" := lit "sk-1" ]};
     files := {[ lit "view_mnist_train.py" := lit "# old viewer" ]};
     write_refused := fun _ => false;
     write_failure := fun _ _ =>
       Some (ValueError (lit "'charmap' codec can't encode characters"), []);
     anthropic_installed := true;
     openai_installed := true;
     hub_importable := true;
     hub_load_dataset := fun url =>
       if str_eqb url (lit "mnist") then inr mnist
       else inl (LibraryError (lit "dataset not found"));
     hub_download := fun _ _ => inl (LibraryError (lit "404"));
     llm_service := fun _ _ _ _ => inr (Some sample_answer);
     spinner_done := false |}.

Definition fresh_state : State := mkState sample_viewer (mkEnv fresh_world []).
Definition unencodable_state : State :=
  mkState sample_viewer (mkEnv unencodable_world []).
Definition failing_model_state : State := mkState sample_viewer (mkEnv failing_model_world []).
Definition read_only_state : State := mkState sample_viewer (mkEnv read_only_world []).

(** viewers of two datasets whose names differ in the separator only *)
Definition slash_named_state : State :=
  mkState (set_dataset_name (Some (lit "user/data")) sample_viewer) (mkEnv sample_world []).
Definition underscore_named_state : State :=
  mkState (set_dataset_name (Some (lit "user_data")) sample_viewer) (mkEnv sample_world []).

(** ** Definitions used by the statements *)

(** the replacement of [_get_viewer_path], character by character *)
Definition slash_to_underscore (c : N) : N := if c =? slash then underscore else c.

(** what a cache hit adds to the trace *)
Definition cache_hit_events (path : str) : list event :=
  [ EvExists path;
    EvPrint (lit "Using existing viewer at " ++ path);
    EvPrint (lit "Use --force to regenerate the viewer") ].

(** the outcome of signalling completion to the progress callback *)
Definition callback_result (dv : DataViewer) (w : World) : outcome unit * World :=
  match progress_callback dv with
  | Some callback => callback w
  | None => (Ok tt, w)
  end.

Definition callback_events (dv : DataViewer) : list event :=
  match progress_callback dv with Some _ => [EvCallback] | None => [] end.

(** a credential is present when its variable holds a non-empty value *)
Definition credential (w : World) (name : str) : option str :=
  match environ w !! name with
  | Some key => if truthy key then Some key else None
  | None => None
  end.

Definition no_keys_message : str :=
  lit "No API keys found. Please set either ANTHROPIC_API_KEY "
  ++ lit "or OPENAI_API_KEY environment variable.".

(** The documentation fetch in the words of the specification: two
    conventional file names are tried in order, and any failure, of
    either attempt or of the step around them, leaves no documentation.
    The second component lists the calls made. *)
Definition read_documentation (w : World) (path : str) : option str * list event :=
  if truthy path then (files w !! path, [EvReadText path]) else (None, []).

Definition best_effort_documentation (w : World) (url : str) : option str * list event :=
  if hub_importable w then
    match hub_download w url (lit "README.md") with
    | inr path =>
        (fst (read_documentation w path),
         EvHubDownload url (lit "README.md") :: snd (read_documentation w path))
    | inl _ =>
        match hub_download w url (lit "dataset_card.md") with
        | inr path =>
            (fst (read_documentation w path),
             EvHubDownload url (lit "README.md")
             :: EvHubDownload url (lit "dataset_card.md")
             :: snd (read_documentation w path))
        | inl _ =>
            (None, [ EvHubDownload url (lit "README.md");
                     EvHubDownload url (lit "dataset_card.md") ])
        end
    end
  else (None, []).

(** the viewer after a successful [load_dataset] *)
Definition loaded (dv : DataViewer) (url : str) (d : DatasetDict) (readme : option str)
  : DataViewer :=
  {| data := Some d;
     dataset_name := Some url;
     llm := llm dv;
     progress_callback := progress_callback dv;
     dataset_readme := Some readme |}.

(** the path of the viewer of a dataset name and a split *)
Definition viewer_path_of (name split : str) : str :=
  lit "view_" ++ str_replace [slash] [underscore] name ++ lit "_" ++ split ++ lit ".py".

(** the commands handed to [os.system] in a trace *)
Definition launched (t : list event) : list str :=
  flat_map (fun ev => match ev with EvSystem c => [c] | _ => [] end) t.

(** the end of every generated viewer *)
Definition viewer_trailer : str :=
  [nl; nl] ++ lit "# Always call display_instance with current instance" ++ [nl]
  ++ lit "display_instance(instance)" ++ [nl].

(** the part of [viewer_template] before the [viewer_code] field, filled *)
Definition viewer_header (name split : str) : str :=
  match str_format
          (firstn (length viewer_template
                   - length (lit "{viewer_code}" ++ viewer_trailer)) viewer_template)
          [ (lit "dataset_name", name); (lit "split", split) ] with
  | inr header => header
  | inl _ => []
  end.

(** ** Proof steps *)

(** reduce the projections of the state after a step *)
Ltac red_state :=
  cbn [self env world trace set_dataset_name set_data set_readme set_callback
       data dataset_name llm progress_callback dataset_readme
       fst snd opt_truthy from_option id].

(** close a goal that differs in the bracketing of the trace *)
Ltac close_trace := repeat rewrite <- app_assoc; reflexivity.

(** one step of the case analysis of a run of [generate_viewer] kept in [H] *)
Ltac gv_red H :=
  cbv beta iota zeta delta
    [self env world trace data llm dataset_name progress_callback dataset_readme
     fst snd] in H.

Ltac gv_open H :=
  unfold generate_viewer, _get_viewer_path, os_path_exists, print, generate_code,
    invoke, write_file, log, get_world, modify_world, of_result, get_self in H;
  unfold bind, lift, modify, ret, raise in H;
  gv_red H.

Ltac gv_case H :=
  match type of H with
  | context [match ?x with _ => _ end] =>
      lazymatch x with
      | context [match _ with _ => _ end] => fail
      | _ => destruct x eqn:?
      end
  | context [if ?x then _ else _] =>
      lazymatch x with
      | context [match _ with _ => _ end] => fail
      | _ => destruct x eqn:?
      end
  end;
  gv_red H.

(** * Properties *)

(** ** Running the monad *)

Lemma bind_Ok {S A B} (m : ST S A) (k : A -> ST S B) s a s' :
  m s = (Ok a, s') -> bind m k s = k a s'.
Proof. intros H. unfold bind. now rewrite H. Qed.

Lemma bind_Raise {S A B} (m : ST S A) (k : A -> ST S B) s x s' :
  m s = (Raise x, s') -> bind m k s = (Raise x, s').
Proof. intros H. unfold bind. now rewrite H. Qed.

Lemma try_except_Raise {S A} (body : ST S A) h s x s' :
  body s = (Raise x, s') -> try_except body h s = h x s'.
Proof. intros H. unfold try_except. now rewrite H. Qed.

Lemma lift_Ok {A} (m : IO A) s a e' :
  m (env s) = (Ok a, e') -> lift m s = (Ok a, mkState (self s) e').
Proof. intros H. unfold lift. now rewrite H. Qed.

Lemma lift_Raise {A} (m : IO A) s x e' :
  m (env s) = (Raise x, e') -> lift m s = (Raise x, mkState (self s) e').
Proof. intros H. unfold lift. now rewrite H. Qed.

Lemma os_path_exists_run path e :
  os_path_exists path e =
    (Ok (bool_decide (is_Some (files (world e) !! path))),
     mkEnv (world e) (trace e ++ [EvExists path])).
Proof. reflexivity. Qed.

Lemma print_run line e :
  print line e = (Ok tt, mkEnv (world e) (trace e ++ [EvPrint line])).
Proof. reflexivity. Qed.

Lemma generate_code_run model prompt system e r :
  llm_service (world e) (backend_of model) (api_key_of model) prompt system = inr r ->
  generate_code model prompt system e =
    (Ok r, mkEnv (world e) (trace e ++ [EvGenerateCode (backend_of model) prompt system])).
Proof.
  intros H. unfold generate_code, bind, log, modify, get_world. cbn [world trace].
  now rewrite H.
Qed.

Lemma write_file_run path content e :
  write_refused (world e) path = false ->
  write_failure (world e) path content = None ->
  write_file path (inr content) e =
    (Ok tt, mkEnv (with_files (<[path := content]> (files (world e))) (world e))
                  (trace e ++ [EvOpenWrite path; EvWrite path content])).
Proof.
  intros H Hf. unfold write_file, bind, get_world. rewrite H.
  unfold log, modify_world, modify, of_result, ret, raise. cbn [world trace].
  rewrite Hf. cbn [world trace].
  unfold with_files at 1.
  cbn [environ files write_refused write_failure anthropic_installed openai_installed
       hub_importable hub_load_dataset hub_download llm_service spinner_done with_files].
  rewrite insert_insert_eq. unfold with_files. now rewrite <- app_assoc.
Qed.

Lemma write_file_fails path content e x remains :
  write_refused (world e) path = false ->
  write_failure (world e) path content = Some (x, remains) ->
  write_file path (inr content) e =
    (Raise x, mkEnv (with_files (<[path := remains]> (files (world e))) (world e))
                    (trace e ++ [EvOpenWrite path])).
Proof.
  intros H Hf. unfold write_file, bind, get_world. rewrite H.
  unfold log, modify_world, modify, of_result, ret, raise. cbn [world trace].
  rewrite Hf. cbn [world trace].
  unfold with_files at 1.
  cbn [environ files write_refused write_failure anthropic_installed openai_installed
       hub_importable hub_load_dataset hub_download llm_service spinner_done with_files].
  rewrite insert_insert_eq. unfold with_files. reflexivity.
Qed.

Lemma model_calls_app t1 t2 :
  model_calls (t1 ++ t2) = (model_calls t1 + model_calls t2)%nat.
Proof. unfold model_calls. now rewrite List.filter_app, length_app. Qed.

Lemma written_paths_app t1 t2 :
  written_paths (t1 ++ t2) = written_paths t1 ++ written_paths t2.
Proof. unfold written_paths. apply flat_map_app. Qed.

(** ** The viewer path *)

Lemma replace_slash (s : str) :
  str_replace [slash] [underscore] s = List.map slash_to_underscore s.
Proof.
  unfold str_replace. induction s as [|c s IH]; [reflexivity|].
  cbn [replace_from startswith List.map]. unfold slash_to_underscore at 1.
  rewrite N.eqb_sym. destruct (c =? slash); cbn; now rewrite IH.
Qed.

(** C3. For every dataset identifier and every split, the derived path
    is [view_<identifier>_<split>.py] with each [/] of the identifier
    replaced by [_]; it depends on the identifier and the split alone,
    and computing it changes nothing. *)
Theorem viewer_path_derivation (s : State) (name split : str) :
  dataset_name (self s) = Some name ->
  _get_viewer_path split s =
    (Ok (lit "view_" ++ List.map slash_to_underscore name
         ++ lit "_" ++ split ++ lit ".py"), s).
Proof.
  intros H. unfold _get_viewer_path, bind, get_self, ret. rewrite H.
  now rewrite replace_slash.
Qed.

Lemma viewer_path_derivation_witness :
  _get_viewer_path (lit "train")
    (mkState (set_dataset_name (Some (lit "princeton-nlp/SWE-bench")) sample_viewer)
             (mkEnv sample_world []))
  = (Ok (lit "view_princeton-nlp_SWE-bench_train.py"),
     mkState (set_dataset_name (Some (lit "princeton-nlp/SWE-bench")) sample_viewer)
             (mkEnv sample_world [])).
Proof.
  apply (viewer_path_derivation
           (mkState (set_dataset_name (Some (lit "princeton-nlp/SWE-bench")) sample_viewer)
                    (mkEnv sample_world []))
           (lit "princeton-nlp/SWE-bench") (lit "train")).
  reflexivity.
Defined.

(** ** Stripping the code fences *)

Lemma lstrip_head s c s' : lstrip s = c :: s' -> isspace c = false.
Proof.
  induction s as [|x s IH]; cbn; [discriminate|].
  destruct (isspace x) eqn:E; [exact IH|]. intros [= <- _]. exact E.
Qed.

Lemma lstrip_nonspace c s : isspace c = false -> lstrip (c :: s) = c :: s.
Proof. intros H. cbn. now rewrite H. Qed.

Lemma rstrip_nonspace c s : isspace c = false -> rstrip (s ++ [c]) = s ++ [c].
Proof.
  intros H. unfold rstrip. rewrite rev_app_distr. cbn [rev app].
  rewrite lstrip_nonspace by exact H. cbn [rev]. now rewrite rev_involutive.
Qed.

Lemma strip_last s x c : strip s = x ++ [c] -> isspace c = false.
Proof.
  unfold strip, rstrip. intros H. apply (f_equal (@rev N)) in H.
  rewrite rev_involutive, rev_app_distr in H. cbn in H.
  exact (lstrip_head _ _ _ H).
Qed.

Section CleanCode.
Variable uni_alnum : N -> bool.
Local Abbreviation word := (isword uni_alnum).
Local Abbreviation matches := (match_here uni_alnum).
Local Abbreviation delete_from := (sub_from uni_alnum).
Local Abbreviation clean := (_clean_code uni_alnum).

Lemma sub_from_skip p b pre s :
  pre <> [] -> delete_from p b (length pre) (pre ++ s) = delete_from p false 0 s.
Proof.
  revert b. induction pre as [|c pre IH]; intros b H; [congruence|].
  cbn [length app sub_from].
  destruct pre as [|c' pre]; [reflexivity|].
  apply IH. discriminate.
Qed.

(** where the pattern matches nowhere, the substitution is the identity *)
Lemma sub_from_no_match p s b :
  (forall n, matches p s b <> Some (S n)) ->
  (forall pre t n, s = pre ++ t -> pre <> [] -> matches p t false <> Some (S n)) ->
  delete_from p b 0 s = s.
Proof.
  revert b. induction s as [|c s IH]; intros b H0 H; [reflexivity|].
  cbn [sub_from].
  assert (Hs : delete_from p false 0 s = s).
  { apply IH.
    - intros n. apply (H [c] s n); [reflexivity|discriminate].
    - intros pre t n -> Hne. apply (H (c :: pre) t n); [reflexivity|discriminate]. }
  destruct (matches p (c :: s) b) as [[|n]|] eqn:E.
  - now rewrite Hs.
  - now destruct (H0 n).
  - now rewrite Hs.
Qed.

Lemma leading_not_at_start s : matches leading_fence_re s false = None.
Proof. reflexivity. Qed.

Lemma sub_leading_rest s : delete_from leading_fence_re false 0 s = s.
Proof.
  apply sub_from_no_match; intros; rewrite leading_not_at_start; discriminate.
Qed.

Lemma word_star_run (w rest : str) b :
  forallb word w = true ->
  word_star uni_alnum (matches [RChar nl]) (w ++ nl :: rest) b = Some (S (length w)).
Proof.
  revert b. induction w as [|c w IH]; intros b H.
  - reflexivity.
  - cbn in H. apply andb_prop in H as [Hc Hw].
    cbn [app word_star length]. rewrite Hc. now rewrite IH.
Qed.

Lemma word_star_inv s b n :
  word_star uni_alnum (matches [RChar nl]) s b = Some n ->
  exists w rest, forallb word w = true /\ s = w ++ nl :: rest.
Proof.
  revert b n. induction s as [|c s IH]; intros b n H.
  - discriminate.
  - assert (Hk : matches [RChar nl] (c :: s) b = Some n ->
                 exists w rest, forallb word w = true /\ c :: s = w ++ nl :: rest).
    { cbn. destruct (N.eqb_spec c nl) as [->|]; [|discriminate].
      intros _. now exists [], s. }
    cbn [word_star] in H. destruct (word c) eqn:Hc; [|auto].
    destruct (word_star uni_alnum (matches [RChar nl]) s false) eqn:E; [|auto].
    destruct (IH _ _ E) as (w & rest & Hw & ->).
    exists (c :: w), rest. cbn. now rewrite Hc, Hw.
Qed.

Lemma leading_match_run (w rest : str) :
  forallb word w = true ->
  matches leading_fence_re (fence ++ w ++ nl :: rest) true
  = Some (length (fence ++ w ++ [nl])).
Proof.
  intros H. cbn -[word_star].
  rewrite word_star_run by exact H. cbn. now rewrite length_app, Nat.add_1_r.
Qed.

Lemma leading_match_inv s b n :
  matches leading_fence_re s b = Some n ->
  exists w rest, forallb word w = true /\ s = fence ++ w ++ nl :: rest.
Proof.
  unfold leading_fence_re. cbn [match_here].
  destruct b; [|discriminate].
  destruct s as [|c1 [|c2 [|c3 s]]]; cbn; try discriminate;
    destruct (N.eqb_spec c1 backtick) as [->|]; try discriminate.
  - cbn. destruct (N.eqb_spec c2 backtick) as [->|]; discriminate.
  - cbn. destruct (N.eqb_spec c2 backtick) as [->|]; [|discriminate].
    cbn. destruct (N.eqb_spec c3 backtick) as [->|]; [|discriminate].
    cbn -[word_star].
    destruct (word_star uni_alnum _ s false) eqn:E; [|discriminate].
    intros _. destruct (word_star_inv _ _ _ E) as (w & rest & Hw & ->).
    now exists w, rest.
Qed.

Lemma sub_leading_wrapped (w rest : str) :
  forallb word w = true ->
  re_sub_empty uni_alnum leading_fence_re (fence ++ w ++ nl :: rest) = rest.
Proof.
  intros H. unfold re_sub_empty.
  pose proof (leading_match_run w rest H) as Hm.
  change (fence ++ w ++ nl :: rest)
    with (backtick :: [backtick; backtick] ++ w ++ nl :: rest) in *.
  cbn [sub_from]. rewrite Hm.
  cbn [length app fence].
  replace (backtick :: backtick :: w ++ nl :: rest)
    with ((backtick :: backtick :: w ++ [nl]) ++ rest)
    by (cbn; now rewrite <- app_assoc).
  change (S (S (length (w ++ [nl]))))
    with (length (backtick :: backtick :: w ++ [nl])).
  rewrite sub_from_skip by discriminate. apply sub_leading_rest.
Qed.

Lemma trailing_match_inv s b n :
  matches trailing_fence_re s b = Some n ->
  s = nl :: fence \/ s = nl :: fence ++ [nl].
Proof.
  unfold trailing_fence_re. cbn [match_here].
  destruct s as [|c0 [|c1 [|c2 [|c3 s]]]]; cbn; try discriminate;
    destruct (N.eqb_spec c0 nl) as [->|]; try discriminate; cbn;
    destruct (N.eqb_spec c1 backtick) as [->|]; try discriminate; cbn;
    destruct (N.eqb_spec c2 backtick) as [->|]; try discriminate; cbn.
  destruct (N.eqb_spec c3 backtick) as [->|]; try discriminate; cbn.
  destruct s as [|c4 [|? ?]]; cbn; try discriminate.
  - now left.
  - destruct (N.eqb_spec c4 nl) as [->|]; [|discriminate]. now right.
Qed.

Lemma sub_trailing_wrapped (c : str) b :
  delete_from trailing_fence_re b 0 (c ++ nl :: fence) = c.
Proof.
  revert b. induction c as [|x c IH]; intros b; [reflexivity|].
  cbn [app sub_from].
  destruct (matches trailing_fence_re (x :: c ++ nl :: fence) b) as [[|n]|] eqn:E;
    try now rewrite IH.
  exfalso. apply trailing_match_inv in E as [E|E].
  - apply (f_equal (@length N)) in E. cbn in E. rewrite length_app in E. cbn in E. lia.
  - apply (f_equal (@rev N)) in E. cbn in E.
    rewrite rev_app_distr in E. cbn in E. discriminate.
Qed.

Lemma sub_trailing_clean s b :
  strip s = s ->
  (forall r, s <> r ++ nl :: fence) ->
  delete_from trailing_fence_re b 0 s = s.
Proof.
  intros Hs Hn.
  assert (H : forall pre t b' n, s = pre ++ t ->
              matches trailing_fence_re t b' <> Some n).
  { intros pre t b' n -> E. apply trailing_match_inv in E as [->| ->].
    - now apply (Hn pre).
    - assert (isspace nl = false); [|discriminate].
      apply (strip_last (pre ++ nl :: fence ++ [nl]) (pre ++ nl :: fence)).
      rewrite Hs. cbn. rewrite <- app_assoc. reflexivity. }
  apply sub_from_no_match.
  - intros n. apply (H [] s); reflexivity.
  - intros pre t n -> _. now apply (H pre t).
Qed.

(** C2, as amended.  [_clean_code] leaves unchanged every string that
    has no white space at either end, does not start with a fence line
    (three backticks, word characters, a newline) and does not end with
    a newline followed by three backticks; and for every code [c] and
    every tag [w] of word characters, the code wrapped in the fence
    line of [w] and a closing fence is cleaned to exactly [c]. *)
Theorem clean_code_unwraps (s w c : str) :
  strip s = s ->
  (forall w' rest, forallb word w' = true -> s <> fence ++ w' ++ nl :: rest) ->
  (forall r, s <> r ++ nl :: fence) ->
  forallb word w = true ->
  clean s = s /\ clean (fence ++ w ++ nl :: c ++ nl :: fence) = c.
Proof.
  intros Hs Hl Ht Hw. split.
  - unfold _clean_code. rewrite Hs.
    assert (Hlead : re_sub_empty uni_alnum leading_fence_re s = s).
    { unfold re_sub_empty. apply sub_from_no_match.
      - intros n E. destruct (leading_match_inv _ _ _ E) as (w' & rest & Hw' & ->).
        now apply (Hl w' rest).
      - intros. rewrite leading_not_at_start. discriminate. }
    rewrite Hlead. unfold re_sub_empty. now apply sub_trailing_clean.
  - unfold _clean_code.
    assert (Hstrip : strip (fence ++ w ++ nl :: c ++ nl :: fence)
                     = fence ++ w ++ nl :: c ++ nl :: fence).
    { unfold strip. change (fence ++ w ++ nl :: c ++ nl :: fence)
        with (backtick :: [backtick; backtick] ++ w ++ nl :: c ++ nl :: fence).
      rewrite lstrip_nonspace by reflexivity.
      replace (backtick :: [backtick; backtick] ++ w ++ nl :: c ++ nl :: fence)
        with ((fence ++ w ++ nl :: c ++ [nl; backtick; backtick]) ++ [backtick]).
      - apply rstrip_nonspace. reflexivity.
      - cbn. rewrite <- !app_assoc. cbn. rewrite <- !app_assoc. reflexivity. }
    rewrite Hstrip. rewrite sub_leading_wrapped by exact Hw.
    unfold re_sub_empty. apply sub_trailing_wrapped.
Qed.

(** One application removes one fence line: under two fence lines the
    second application still changes the text, whatever the table of
    word characters. *)
Lemma clean_code_twice_differs :
  clean (clean (fence ++ [nl] ++ fence ++ [nl] ++ lit "x"))
  <> clean (fence ++ [nl] ++ fence ++ [nl] ++ lit "x").
Proof. vm_compute. discriminate. Qed.
End CleanCode.

(** C2, the claim as stated fails.  Cleaning is not idempotent: the
    text under two fence lines is changed again by a second cleaning;
    and code that is already free of fences is still changed when it
    ends with a newline. *)
Lemma clean_code_not_idempotent :
  _clean_code ascii_alnum (fence ++ [nl] ++ fence ++ [nl] ++ lit "x")
    = fence ++ [nl] ++ lit "x" /\
  _clean_code ascii_alnum
    (_clean_code ascii_alnum (fence ++ [nl] ++ fence ++ [nl] ++ lit "x"))
    = lit "x" /\
  _clean_code ascii_alnum
    (_clean_code ascii_alnum (fence ++ [nl] ++ fence ++ [nl] ++ lit "x"))
    <> _clean_code ascii_alnum (fence ++ [nl] ++ fence ++ [nl] ++ lit "x") /\
  _clean_code ascii_alnum (lit "x = 1" ++ [nl]) <> lit "x = 1" ++ [nl].
Proof.
  repeat split; try (vm_compute; reflexivity); vm_compute; discriminate.
Qed.

Lemma clean_code_unwraps_witness :
  _clean_code ascii_alnum (lit "x = 1") = lit "x = 1" /\
  _clean_code ascii_alnum
    (fence ++ lit "python" ++ nl :: lit "x = 1" ++ nl :: fence) = lit "x = 1".
Proof.
  apply (clean_code_unwraps ascii_alnum (lit "x = 1") (lit "python") (lit "x = 1")).
  - reflexivity.
  - intros w' rest _ H. vm_compute in H. discriminate H.
  - intros r H. apply (f_equal (@rev N)) in H. rewrite rev_app_distr in H.
    vm_compute in H. discriminate H.
  - reflexivity.
Defined.

(** ** Generating the viewer *)

Lemma viewer_template_fills (name split code : str) :
  exists content,
    str_format viewer_template
      [ (lit "dataset_name", name); (lit "split", split); (lit "viewer_code", code) ]
    = inr content.
Proof.
  destruct (str_format viewer_template _) as [e|content] eqn:E; [|now exists content].
  exfalso. vm_compute in E. discriminate E.
Qed.

Section Viewer.
Variable uni_alnum : N -> bool.
Variable py_repr : str -> str.
Variable json_dumps : list (str * str) -> str.
Local Abbreviation gv := (generate_viewer uni_alnum json_dumps).

(** the prompt can always be built *)
Lemma make_prompt_total readme sample extra :
  exists prompt, make_prompt json_dumps readme sample extra = inr prompt.
Proof.
  unfold make_prompt.
  generalize (json_dumps (features_of sample)) (json_dumps (example_of sample)).
  intros f x.
  set (r := if opt_truthy readme then _ else _).
  set (q := if truthy extra then _ else _).
  clearbody r q.
  destruct (str_format base_prompt _) as [e|prompt] eqn:E; [|now exists prompt].
  exfalso. vm_compute in E. discriminate E.
Qed.

(** C8. When the dataset is not loaded or the model client is not
    configured, [generate_viewer] raises the precondition error and
    leaves the viewer, the world and the trace as they were: no model
    call, no file read and no file write has happened.  The dataset is
    checked first, so its message wins when both are missing. *)
Theorem generate_viewer_preconditions (s : State) (split extra : str) (force : bool) :
  data (self s) = None \/ llm (self s) = None ->
  gv split extra force s =
    (Raise (ValueError match data (self s) with
                       | None => lit "No dataset loaded"
                       | Some _ => lit "No language model configured"
                       end), s).
Proof.
  intros H. unfold generate_viewer. rewrite (bind_Ok _ _ s (self s) s) by reflexivity.
  destruct (data (self s)); [|reflexivity].
  destruct H as [H|H]; [discriminate|]. now rewrite H.
Qed.

(** C9. The precondition errors are raised also when a file exists at
    the derived path and [force] is false: a cache hit does not bypass
    them, and the call changes nothing. *)
Theorem preconditions_precede_cache (s : State) (split extra path : str) :
  _get_viewer_path split s = (Ok path, s) ->
  is_Some (files (world (env s)) !! path) ->
  data (self s) = None \/ llm (self s) = None ->
  gv split extra false s =
    (Raise (ValueError match data (self s) with
                       | None => lit "No dataset loaded"
                       | Some _ => lit "No language model configured"
                       end), s).
Proof.
  intros _ _ H. unfold generate_viewer. rewrite (bind_Ok _ _ s (self s) s) by reflexivity.
  destruct (data (self s)); [|reflexivity].
  destruct H as [H|H]; [discriminate|]. now rewrite H.
Qed.

(** a cache hit, step by step *)
Lemma cache_hit_run (s : State) (split extra path : str) d model :
  data (self s) = Some d ->
  llm (self s) = Some model ->
  _get_viewer_path split s = (Ok path, s) ->
  is_Some (files (world (env s)) !! path) ->
  gv split extra false s =
    (Ok path, mkState (self s)
                (mkEnv (world (env s)) (trace (env s) ++ cache_hit_events path))).
Proof.
  intros Hd Hm Hp Hf.
  unfold generate_viewer. rewrite (bind_Ok _ _ s (self s) s) by reflexivity.
  rewrite Hd, Hm.
  rewrite (bind_Ok _ _ _ _ _ Hp).
  rewrite (bind_Ok _ _ _ _ _ (lift_Ok _ _ _ _ (os_path_exists_run _ _))).
  rewrite bool_decide_eq_true_2 by exact Hf.
  cbn [andb negb].
  rewrite (bind_Ok _ _ _ _ _ (lift_Ok _ _ _ _ (print_run _ _))).
  rewrite (bind_Ok _ _ _ _ _ (lift_Ok _ _ _ _ (print_run _ _))).
  unfold ret, cache_hit_events. cbn [self env world trace].
  now rewrite <- !app_assoc.
Qed.

(** C1. With a loaded dataset and a configured model client, when a
    file exists at the derived path and [force] is false,
    [generate_viewer] returns that path, and the trace holds no more
    calls of [generate_code] than before: file existence alone decides
    the cache hit. *)
Theorem generate_viewer_cache_hit (s : State) (split extra path : str) d model :
  data (self s) = Some d ->
  llm (self s) = Some model ->
  _get_viewer_path split s = (Ok path, s) ->
  is_Some (files (world (env s)) !! path) ->
  fst (gv split extra false s) = Ok path /\
  model_calls (trace (env (snd (gv split extra false s)))) = model_calls (trace (env s)) /\
  trace (env (snd (gv split extra false s))) = trace (env s) ++ cache_hit_events path.
Proof.
  intros Hd Hm Hp Hf. rewrite (cache_hit_run s split extra path d model) by assumption.
  cbn [fst snd env trace]. split; [reflexivity|]. split; [|reflexivity].
  rewrite model_calls_app.
  unfold cache_hit_events, model_calls at 2. cbn [List.filter length]. lia.
Qed.

(** C10. On a cache hit the viewer object is unchanged in every field,
    the world (its files with their contents among the rest) is
    unchanged, and the trace gains no write. *)
Theorem cache_hit_frame (s : State) (split extra path : str) d model :
  data (self s) = Some d ->
  llm (self s) = Some model ->
  _get_viewer_path split s = (Ok path, s) ->
  is_Some (files (world (env s)) !! path) ->
  self (snd (gv split extra false s)) = self s /\
  world (env (snd (gv split extra false s))) = world (env s) /\
  written_paths (trace (env (snd (gv split extra false s))))
    = written_paths (trace (env s)).
Proof.
  intros Hd Hm Hp Hf. rewrite (cache_hit_run s split extra path d model) by assumption.
  cbn [fst snd env trace self world]. repeat split. rewrite written_paths_app.
  unfold cache_hit_events, written_paths at 2. cbn [flat_map app]. apply app_nil_r.
Qed.

(** a regeneration that succeeds, step by step *)
Lemma regenerate_run (s : State) (split extra path : str) (force : bool)
      d model sample readme prompt code w2 content :
  data (self s) = Some d ->
  llm (self s) = Some model ->
  _get_viewer_path split s = (Ok path, s) ->
  bool_decide (is_Some (files (world (env s)) !! path)) && negb force = false ->
  first_instance d split = inr sample ->
  dataset_readme (self s) = Some readme ->
  make_prompt json_dumps readme sample extra = inr prompt ->
  llm_service (world (env s)) (backend_of model) (api_key_of model) prompt system_message
    = inr (Some code) ->
  callback_result (self s) (world (env s)) = (Ok tt, w2) ->
  write_refused w2 path = false ->
  str_format viewer_template
    [ (lit "dataset_name", str_of_opt (dataset_name (self s)));
      (lit "split", split);
      (lit "viewer_code", _clean_code uni_alnum code) ] = inr content ->
  write_failure w2 path content = None ->
  gv split extra force s =
    (Ok path,
     mkState (self s)
       (mkEnv (with_files (<[path := content]> (files w2)) w2)
          (trace (env s)
           ++ [EvExists path; EvGenerateCode (backend_of model) prompt system_message]
           ++ callback_events (self s)
           ++ [EvOpenWrite path; EvWrite path content]))).
Proof.
  intros Hd Hm Hp Hmiss Hs Hr Hpr Hllm Hcb Hw Hfmt Hwf.
  unfold generate_viewer. rewrite (bind_Ok _ _ s (self s) s) by reflexivity.
  rewrite Hd, Hm.
  rewrite (bind_Ok _ _ _ _ _ Hp).
  rewrite (bind_Ok _ _ _ _ _ (lift_Ok _ _ _ _ (os_path_exists_run _ _))).
  rewrite Hmiss, Hs.
  rewrite (bind_Ok (of_result (inr sample)) _ _ sample _) by reflexivity.
  rewrite Hr.
  rewrite (bind_Ok (ret readme) _ _ readme _) by reflexivity.
  rewrite Hpr.
  rewrite (bind_Ok (of_result (inr prompt)) _ _ prompt _) by reflexivity.
  rewrite (bind_Ok _ _ _ _ _
    (lift_Ok _ (mkState (self s) (mkEnv (world (env s)) (trace (env s) ++ [EvExists path])))
       _ _ (generate_code_run model prompt system_message
              (mkEnv (world (env s)) (trace (env s) ++ [EvExists path])) _ Hllm))).
  rewrite (bind_Ok (ret _) _ _ (_clean_code uni_alnum code) _) by reflexivity.
  rewrite Hfmt.
  unfold callback_result, callback_events in *.
  destruct (progress_callback (self s)) as [cb|].
  - rewrite (bind_Ok _ _ _ tt
      (mkState (self s) (mkEnv w2 (trace (env s)
         ++ [EvExists path; EvGenerateCode (backend_of model) prompt system_message]
         ++ [EvCallback])))).
    + rewrite (bind_Ok _ _ _ _ _
        (lift_Ok _ (mkState (self s) (mkEnv w2 _)) _ _
           (write_file_run path content (mkEnv w2 _) Hw Hwf))).
      unfold ret. cbn [self env world trace]. now rewrite <- !app_assoc.
    + unfold lift, invoke, bind, log, modify. cbn [self env world trace].
      rewrite Hcb. now rewrite <- !app_assoc.
  - injection Hcb as <-.
    rewrite (bind_Ok (ret tt) _ _ tt _) by reflexivity.
    rewrite (bind_Ok _ _ _ _ _
      (lift_Ok _ (mkState (self s) (mkEnv (world (env s)) _)) _ _
         (write_file_run path content (mkEnv (world (env s)) _) Hw Hwf))).
    unfold ret. cbn [self env world trace app]. now rewrite <- !app_assoc.
Qed.

(** a regeneration whose write fails on the opened file *)
Lemma regenerate_write_fails (s : State) (split extra path : str) (force : bool)
      d model sample readme prompt code w2 content x remains :
  data (self s) = Some d ->
  llm (self s) = Some model ->
  _get_viewer_path split s = (Ok path, s) ->
  bool_decide (is_Some (files (world (env s)) !! path)) && negb force = false ->
  first_instance d split = inr sample ->
  dataset_readme (self s) = Some readme ->
  make_prompt json_dumps readme sample extra = inr prompt ->
  llm_service (world (env s)) (backend_of model) (api_key_of model) prompt system_message
    = inr (Some code) ->
  callback_result (self s) (world (env s)) = (Ok tt, w2) ->
  write_refused w2 path = false ->
  str_format viewer_template
    [ (lit "dataset_name", str_of_opt (dataset_name (self s)));
      (lit "split", split);
      (lit "viewer_code", _clean_code uni_alnum code) ] = inr content ->
  write_failure w2 path content = Some (x, remains) ->
  gv split extra force s =
    (Raise x,
     mkState (self s)
       (mkEnv (with_files (<[path := remains]> (files w2)) w2)
          (trace (env s)
           ++ [EvExists path; EvGenerateCode (backend_of model) prompt system_message]
           ++ callback_events (self s)
           ++ [EvOpenWrite path]))).
Proof.
  intros Hd Hm Hp Hmiss Hs Hr Hpr Hllm Hcb Hw Hfmt Hwf.
  unfold generate_viewer. rewrite (bind_Ok _ _ s (self s) s) by reflexivity.
  rewrite Hd, Hm.
  rewrite (bind_Ok _ _ _ _ _ Hp).
  rewrite (bind_Ok _ _ _ _ _ (lift_Ok _ _ _ _ (os_path_exists_run _ _))).
  rewrite Hmiss, Hs.
  rewrite (bind_Ok (of_result (inr sample)) _ _ sample _) by reflexivity.
  rewrite Hr.
  rewrite (bind_Ok (ret readme) _ _ readme _) by reflexivity.
  rewrite Hpr.
  rewrite (bind_Ok (of_result (inr prompt)) _ _ prompt _) by reflexivity.
  rewrite (bind_Ok _ _ _ _ _
    (lift_Ok _ (mkState (self s) (mkEnv (world (env s)) (trace (env s) ++ [EvExists path])))
       _ _ (generate_code_run model prompt system_message
              (mkEnv (world (env s)) (trace (env s) ++ [EvExists path])) _ Hllm))).
  rewrite (bind_Ok (ret _) _ _ (_clean_code uni_alnum code) _) by reflexivity.
  rewrite Hfmt.
  unfold callback_result, callback_events in *.
  destruct (progress_callback (self s)) as [cb|].
  - rewrite (bind_Ok _ _ _ tt
      (mkState (self s) (mkEnv w2 (trace (env s)
         ++ [EvExists path; EvGenerateCode (backend_of model) prompt system_message]
         ++ [EvCallback])))).
    + rewrite (bind_Raise _ _ _ _ _
        (lift_Raise _ (mkState (self s) (mkEnv w2 _)) _ _
           (write_file_fails path content (mkEnv w2 _) _ _ Hw Hwf))).
      cbn [self env world trace]. now rewrite <- !app_assoc.
    + unfold lift, invoke, bind, log, modify. cbn [self env world trace].
      rewrite Hcb. now rewrite <- !app_assoc.
  - injection Hcb as <-.
    rewrite (bind_Ok (ret tt) _ _ tt _) by reflexivity.
    rewrite (bind_Raise _ _ _ _ _
      (lift_Raise _ (mkState (self s) (mkEnv (world (env s)) _)) _ _
         (write_file_fails path content (mkEnv (world (env s)) _) _ _ Hw Hwf))).
    cbn [self env world trace app]. now rewrite <- !app_assoc.
Qed.

(** a regeneration calls the model once, however the call, the
    callback and the write then turn out *)
Lemma regenerate_invokes_model (s : State) (split extra path : str) (force : bool)
      d model sample readme prompt :
  data (self s) = Some d ->
  llm (self s) = Some model ->
  _get_viewer_path split s = (Ok path, s) ->
  bool_decide (is_Some (files (world (env s)) !! path)) && negb force = false ->
  first_instance d split = inr sample ->
  dataset_readme (self s) = Some readme ->
  make_prompt json_dumps readme sample extra = inr prompt ->
  exists t,
    trace (env (snd (gv split extra force s)))
    = trace (env s)
      ++ EvExists path :: EvGenerateCode (backend_of model) prompt system_message :: t /\
    model_calls t = 0%nat.
Proof.
  intros Hd Hm Hp Hmiss Hs Hr Hpr.
  unfold generate_viewer. rewrite (bind_Ok _ _ s (self s) s) by reflexivity.
  rewrite Hd, Hm.
  rewrite (bind_Ok _ _ _ _ _ Hp).
  rewrite (bind_Ok _ _ _ _ _ (lift_Ok _ _ _ _ (os_path_exists_run _ _))).
  rewrite Hmiss, Hs.
  rewrite (bind_Ok (of_result (inr sample)) _ _ sample _) by reflexivity.
  rewrite Hr.
  rewrite (bind_Ok (ret readme) _ _ readme _) by reflexivity.
  rewrite Hpr.
  rewrite (bind_Ok (of_result (inr prompt)) _ _ prompt _) by reflexivity.
  destruct (llm_service (world (env s)) (backend_of model) (api_key_of model) prompt
              system_message) as [e|[code|]] eqn:Hllm.
  - exists []. split; [|reflexivity].
    unfold bind at 1, lift at 1, generate_code, bind, log, modify, get_world.
    cbn [self env world trace]. rewrite Hllm. cbn [of_result raise snd env trace].
    now rewrite <- app_assoc.
  - rewrite (bind_Ok _ _ _ _ _
      (lift_Ok _ (mkState (self s) (mkEnv (world (env s)) (trace (env s) ++ [EvExists path])))
         _ _ (generate_code_run model prompt system_message
                (mkEnv (world (env s)) (trace (env s) ++ [EvExists path])) _ Hllm))).
    rewrite (bind_Ok (ret _) _ _ (_clean_code uni_alnum code) _) by reflexivity.
    destruct (viewer_template_fills (str_of_opt (dataset_name (self s))) split
                (_clean_code uni_alnum code)) as [content Hfmt].
    rewrite Hfmt.
    unfold bind, lift, invoke, write_file, bind, log, modify_world, modify, get_world,
      of_result, ret, raise.
    cbn [self env world trace].
    destruct (progress_callback (self s)) as [cb|].
    + cbn [self env world trace]. destruct (cb (world (env s))) as [[[]|e|] w2];
        cbn [self env world trace snd].
      * destruct (write_refused w2 path); cbn [self env world trace snd with_files
          write_refused write_failure environ files];
          [|destruct (write_failure w2 path content) as [[x remains]|];
            cbn [self env world trace snd with_files write_refused write_failure
                 environ files]];
          eexists; (split; [repeat rewrite <- app_assoc; reflexivity | reflexivity]).
      * eexists; (split; [repeat rewrite <- app_assoc; reflexivity | reflexivity]).
      * eexists; (split; [repeat rewrite <- app_assoc; reflexivity | reflexivity]).
    + cbn [self env world trace snd].
      destruct (write_refused (world (env s)) path); cbn [self env world trace snd with_files
          write_refused write_failure environ files];
        [|destruct (write_failure (world (env s)) path content) as [[x remains]|];
          cbn [self env world trace snd with_files write_refused write_failure
               environ files]];
        eexists; (split; [repeat rewrite <- app_assoc; reflexivity | reflexivity]).
  - exists []. split; [|reflexivity].
    rewrite (bind_Ok _ _ _ _ _
      (lift_Ok _ (mkState (self s) (mkEnv (world (env s)) (trace (env s) ++ [EvExists path])))
         _ _ (generate_code_run model prompt system_message
                (mkEnv (world (env s)) (trace (env s) ++ [EvExists path])) _ Hllm))).
    unfold bind at 1, raise. cbn [snd env trace]. now rewrite <- app_assoc.
Qed.

(** C4, as amended.  With a loaded dataset and a configured model
    client, provided the requested split is in the dataset and has a
    first row: [generate_viewer] with [force] set calls the model
    client exactly once, whether or not a file exists at the derived
    path; and when the model answers with text, the progress callback
    returns, the file can be opened for writing and the write of the
    filled template completes, the call returns the path and the file
    at the path then holds the template filled with the dataset name,
    the split and the cleaned answer.  When instead the write fails on
    the opened file, its exception leaves the call and the file holds
    what the failed write left, its earlier content being lost. *)
Theorem generate_viewer_force (s : State) (split extra path : str)
        d model sample readme prompt :
  data (self s) = Some d ->
  llm (self s) = Some model ->
  _get_viewer_path split s = (Ok path, s) ->
  first_instance d split = inr sample ->
  dataset_readme (self s) = Some readme ->
  make_prompt json_dumps readme sample extra = inr prompt ->
  (model_calls (trace (env (snd (gv split extra true s))))
     = S (model_calls (trace (env s))) /\
   exists t,
     trace (env (snd (gv split extra true s)))
     = trace (env s)
       ++ EvExists path :: EvGenerateCode (backend_of model) prompt system_message :: t) /\
  (forall code w2,
     llm_service (world (env s)) (backend_of model) (api_key_of model) prompt
       system_message = inr (Some code) ->
     callback_result (self s) (world (env s)) = (Ok tt, w2) ->
     write_refused w2 path = false ->
     exists content,
       str_format viewer_template
         [ (lit "dataset_name", str_of_opt (dataset_name (self s)));
           (lit "split", split);
           (lit "viewer_code", _clean_code uni_alnum code) ] = inr content /\
       match write_failure w2 path content with
       | None =>
           fst (gv split extra true s) = Ok path /\
           files (world (env (snd (gv split extra true s)))) !! path = Some content /\
           files (world (env (snd (gv split extra true s))))
             = <[path := content]> (files w2)
       | Some (e, remains) =>
           fst (gv split extra true s) = Raise e /\
           files (world (env (snd (gv split extra true s))))
             = <[path := remains]> (files w2)
       end).
Proof.
  intros Hd Hm Hp Hs Hr Hpr. split.
  - destruct (regenerate_invokes_model s split extra path true d model sample readme
                prompt) as (t & Ht & Hc); try assumption; [apply andb_false_r|].
    split; [|now exists t].
    rewrite Ht.
    change (EvExists path :: EvGenerateCode (backend_of model) prompt system_message :: t)
      with ([EvExists path; EvGenerateCode (backend_of model) prompt system_message] ++ t).
    rewrite !model_calls_app, Hc. cbn. lia.
  - intros code w2 Hllm Hcb Hw.
    destruct (viewer_template_fills (str_of_opt (dataset_name (self s))) split
                (_clean_code uni_alnum code)) as [content Hfmt].
    exists content. split; [exact Hfmt|].
    destruct (write_failure w2 path content) as [[e remains]|] eqn:Hwf.
    + rewrite (regenerate_write_fails s split extra path true d model sample readme prompt
                 code w2 content e remains) by (try assumption; apply andb_false_r).
      cbn [fst snd env world trace files with_files]. split; reflexivity.
    + rewrite (regenerate_run s split extra path true d model sample readme prompt code
                 w2 content) by (try assumption; apply andb_false_r).
      cbn [fst snd env world trace files with_files]. repeat split.
      apply lookup_insert_eq.
Qed.

(** ** Selecting the backend *)

Lemma from_environment_run (e : Env) :
  from_environment e =
    match credential (world e) (lit "ANTHROPIC_API_KEY"),
          credential (world e) (lit "OPENAI_API_KEY") with
    | Some key, _ =>
        (model <- Claude_init key ;; ret (DataViewer_init (Some model))) e
    | None, Some key =>
        (model <- GPT4_init key ;; ret (DataViewer_init (Some model))) e
    | None, None => (Raise (ValueError no_keys_message), e)
    end.
Proof.
  unfold from_environment, credential, os_getenv.
  unfold bind at 1. unfold bind at 1. unfold get_world at 1, ret at 1.
  destruct (environ (world e) !! lit "ANTHROPIC_API_KEY") as [ka|] eqn:Ea.
  - cbn [opt_truthy]. destruct (truthy ka) eqn:Ta.
    + unfold bind at 1, bind at 1, get_world at 1, ret at 1. rewrite Ea. reflexivity.
    + unfold bind at 1, bind at 1, get_world at 1, ret at 1.
      destruct (environ (world e) !! lit "OPENAI_API_KEY") as [ko|] eqn:Eo;
        cbn [opt_truthy].
      * destruct (truthy ko).
        -- unfold bind at 1, bind at 1, get_world at 1, ret at 1. rewrite Eo. reflexivity.
        -- reflexivity.
      * reflexivity.
  - cbn [opt_truthy].
    unfold bind at 1, bind at 1, get_world at 1, ret at 1.
    destruct (environ (world e) !! lit "OPENAI_API_KEY") as [ko|] eqn:Eo;
      cbn [opt_truthy].
    + destruct (truthy ko).
      * unfold bind at 1, bind at 1, get_world at 1, ret at 1. rewrite Eo. reflexivity.
      * reflexivity.
    + reflexivity.
Qed.

Lemma from_environment_no_keys (e : Env) :
  credential (world e) (lit "ANTHROPIC_API_KEY") = None ->
  credential (world e) (lit "OPENAI_API_KEY") = None ->
  from_environment e = (Raise (ValueError no_keys_message), e).
Proof. intros Ha Ho. rewrite from_environment_run, Ha, Ho. reflexivity. Qed.

(** C6. The backend is decided by the two credentials alone, a
    credential being present when its variable holds a non-empty
    value: with the Anthropic credential the Claude client is built,
    whatever the OpenAI variable holds; without it and with the OpenAI
    credential the GPT-4 client is built; with neither the construction
    raises the configuration error, and [main] then ends with that
    message after its first progress line only, so before any dataset
    load. *)
Theorem backend_selection (e : Env) (dataset_url split prompt : str) (force : bool) :
  match credential (world e) (lit "ANTHROPIC_API_KEY"),
        credential (world e) (lit "OPENAI_API_KEY") with
  | Some key, _ =>
      from_environment e
      = (model <- Claude_init key ;; ret (DataViewer_init (Some model))) e
  | None, Some key =>
      from_environment e
      = (model <- GPT4_init key ;; ret (DataViewer_init (Some model))) e
  | None, None =>
      from_environment e = (Raise (ValueError no_keys_message), e) /\
      main uni_alnum py_repr json_dumps dataset_url split prompt force e
      = (Raise (ClickException no_keys_message),
         mkEnv (world e)
           (trace e ++ [EvSecho ([nl; 128295] ++ lit " Setting up DataViewer for "
                                 ++ dataset_url) (lit "green")]))
  end.
Proof.
  pose proof (from_environment_run e) as H.
  destruct (credential (world e) (lit "ANTHROPIC_API_KEY")) as [ka|] eqn:Ea;
    [exact H|].
  destruct (credential (world e) (lit "OPENAI_API_KEY")) as [ko|] eqn:Eo;
    [exact H|].
  split; [exact H|].
  unfold main.
  rewrite (try_except_Raise _ _ e (ValueError no_keys_message)
             (mkEnv (world e)
                (trace e ++ [EvSecho ([nl; 128295] ++ lit " Setting up DataViewer for "
                                      ++ dataset_url) (lit "green")]))).
  - reflexivity.
  - erewrite bind_Ok by reflexivity.
    apply bind_Raise. now apply from_environment_no_keys.
Qed.
End Viewer.

Lemma generate_viewer_preconditions_witness :
  generate_viewer ascii_alnum flat_json (lit "train") [] true unloaded_state
  = (Raise (ValueError (lit "No dataset loaded")), unloaded_state).
Proof.
  apply (generate_viewer_preconditions ascii_alnum flat_json unloaded_state
           (lit "train") [] true).
  left. reflexivity.
Defined.

Lemma preconditions_precede_cache_witness :
  generate_viewer ascii_alnum flat_json (lit "train") [] false unloaded_state
  = (Raise (ValueError (lit "No dataset loaded")), unloaded_state).
Proof.
  apply (preconditions_precede_cache ascii_alnum flat_json unloaded_state
           (lit "train") [] (lit "view_mnist_train.py")).
  - reflexivity.
  - vm_compute. eexists. reflexivity.
  - left. reflexivity.
Defined.

Lemma generate_viewer_cache_hit_witness :
  fst (generate_viewer ascii_alnum flat_json (lit "train") [] false sample_state)
    = Ok (lit "view_mnist_train.py") /\
  model_calls (trace (env (snd (generate_viewer ascii_alnum flat_json
                                  (lit "train") [] false sample_state))))
    = model_calls (trace (env sample_state)) /\
  trace (env (snd (generate_viewer ascii_alnum flat_json
                     (lit "train") [] false sample_state)))
    = trace (env sample_state) ++ cache_hit_events (lit "view_mnist_train.py").
Proof.
  apply (generate_viewer_cache_hit ascii_alnum flat_json sample_state
           (lit "train") [] (lit "view_mnist_train.py") mnist (GPT4 (lit "sk-1"))).
  - reflexivity.
  - reflexivity.
  - reflexivity.
  - vm_compute. eexists. reflexivity.
Defined.

Lemma cache_hit_frame_witness :
  self (snd (generate_viewer ascii_alnum flat_json (lit "train") [] false sample_state))
    = self sample_state /\
  world (env (snd (generate_viewer ascii_alnum flat_json
                     (lit "train") [] false sample_state)))
    = world (env sample_state) /\
  written_paths (trace (env (snd (generate_viewer ascii_alnum flat_json
                                    (lit "train") [] false sample_state))))
    = written_paths (trace (env sample_state)).
Proof.
  apply (cache_hit_frame ascii_alnum flat_json sample_state
           (lit "train") [] (lit "view_mnist_train.py") mnist (GPT4 (lit "sk-1"))).
  - reflexivity.
  - reflexivity.
  - reflexivity.
  - vm_compute. eexists. reflexivity.
Defined.

(** C4, the claim as stated fails.  The dataset is loaded, the model
    client is configured and a file exists at the derived path, yet
    with a split the dataset does not have the forced call raises
    [KeyError] before the model is called, and the file keeps its old
    content. *)
Lemma force_with_missing_split :
  data (self sample_state) = Some mnist /\
  llm (self sample_state) = Some (GPT4 (lit "sk-1")) /\
  files (world (env sample_state)) !! lit "view_mnist_validation.py"
    = Some (lit "# old viewer") /\
  fst (generate_viewer ascii_alnum flat_json (lit "validation") [] true sample_state)
    = Raise (KeyError (lit "validation")) /\
  model_calls (trace (env (snd (generate_viewer ascii_alnum flat_json
                                  (lit "validation") [] true sample_state)))) = 0%nat /\
  files (world (env (snd (generate_viewer ascii_alnum flat_json
                            (lit "validation") [] true sample_state))))
    !! lit "view_mnist_validation.py" = Some (lit "# old viewer").
Proof. repeat split; vm_compute; reflexivity. Qed.

Lemma generate_viewer_force_witness :
  (model_calls (trace (env (snd (generate_viewer ascii_alnum flat_json
                                   (lit "train") [] true sample_state))))
     = S (model_calls (trace (env sample_state))) /\
   exists t,
     trace (env (snd (generate_viewer ascii_alnum flat_json
                        (lit "train") [] true sample_state)))
     = trace (env sample_state)
       ++ EvExists (lit "view_mnist_train.py")
          :: EvGenerateCode (backend_of (GPT4 (lit "sk-1"))) sample_prompt system_message
          :: t) /\
  (forall code w2,
     llm_service (world (env sample_state)) (backend_of (GPT4 (lit "sk-1")))
       (api_key_of (GPT4 (lit "sk-1"))) sample_prompt system_message = inr (Some code) ->
     callback_result (self sample_state) (world (env sample_state)) = (Ok tt, w2) ->
     write_refused w2 (lit "view_mnist_train.py") = false ->
     exists content,
       str_format viewer_template
         [ (lit "dataset_name", str_of_opt (dataset_name (self sample_state)));
           (lit "split", lit "train");
           (lit "viewer_code", _clean_code ascii_alnum code) ] = inr content /\
       match write_failure w2 (lit "view_mnist_train.py") content with
       | None =>
           fst (generate_viewer ascii_alnum flat_json (lit "train") [] true sample_state)
             = Ok (lit "view_mnist_train.py") /\
           files (world (env (snd (generate_viewer ascii_alnum flat_json
                                     (lit "train") [] true sample_state))))
             !! lit "view_mnist_train.py" = Some content /\
           files (world (env (snd (generate_viewer ascii_alnum flat_json
                                     (lit "train") [] true sample_state))))
             = <[lit "view_mnist_train.py" := content]> (files w2)
       | Some (e, remains) =>
           fst (generate_viewer ascii_alnum flat_json (lit "train") [] true sample_state)
             = Raise e /\
           files (world (env (snd (generate_viewer ascii_alnum flat_json
                                     (lit "train") [] true sample_state))))
             = <[lit "view_mnist_train.py" := remains]> (files w2)
       end).
Proof.
  apply (generate_viewer_force ascii_alnum flat_json sample_state
           (lit "train") [] (lit "view_mnist_train.py")
           mnist (GPT4 (lit "sk-1")) mnist_row None sample_prompt).
  - reflexivity.
  - reflexivity.
  - reflexivity.
  - reflexivity.
  - reflexivity.
  - vm_compute. reflexivity.
Defined.

(** the forced regeneration of the sample: the old file is replaced by
    the filled template, which ends with the call of [display_instance] *)
Example forced_regeneration_example :
  exists content,
    files (world (env (snd (generate_viewer ascii_alnum flat_json
                              (lit "train") [] true sample_state))))
      !! lit "view_mnist_train.py" = Some content /\
    content <> lit "# old viewer" /\
    endswith (lit "display_instance(instance)" ++ [nl]) content = true /\
    model_calls (trace (env (snd (generate_viewer ascii_alnum flat_json
                                    (lit "train") [] true sample_state)))) = 1%nat.
Proof.
  eexists. split; [vm_compute; reflexivity|].
  split; [discriminate|]. split; vm_compute; reflexivity.
Qed.

(** With both credentials the Claude client is built; an empty
    Anthropic variable counts as absent, and the OpenAI key is used. *)
Example credentials_examples :
  fst (from_environment (mkEnv both_keys_world []))
    = Ok (DataViewer_init (Some (Claude (lit "sk-ant-1")))) /\
  fst (from_environment (mkEnv empty_anthropic_world []))
    = Ok (DataViewer_init (Some (GPT4 (lit "sk-1")))).
Proof. split; vm_compute; reflexivity. Qed.

(** ** Loading the dataset *)

(** C7. Once the table is fetched, [load_dataset] completes whatever
    the documentation fetch does: the recorded documentation is the
    best-effort one (the text behind [README.md], else the text behind
    [dataset_card.md], and none after any failure), and the two file
    names are asked for in that order. *)
Theorem load_dataset_documentation (s : State) (url : str) (d : DatasetDict) :
  hub_load_dataset (world (env s)) url = inr d ->
  load_dataset url s =
    (Ok tt,
     mkState (loaded (self s) url d (fst (best_effort_documentation (world (env s)) url)))
       (mkEnv (world (env s))
          (trace (env s)
           ++ EvLoadDataset url :: snd (best_effort_documentation (world (env s)) url)))).
Proof.
  intros Hd. destruct s as [dv [w t]]. cbn [self env world trace] in *.
  unfold load_dataset, best_effort_documentation, read_documentation, loaded.
  unfold load_dataset_ext, import_hub, hf_hub_download, read_text, set_self, log,
    get_world, of_result.
  unfold bind, try_except, lift, modify, ret, raise.
  red_state. rewrite Hd. red_state.
  destruct (hub_importable w); red_state; [|reflexivity].
  destruct (hub_download w url (lit "README.md")) as [e1|p1]; red_state.
  - destruct (hub_download w url (lit "dataset_card.md")) as [e2|p2]; red_state.
    + close_trace.
    + destruct (truthy p2); red_state; [|close_trace].
      destruct (files w !! p2); red_state; close_trace.
  - destruct (truthy p1); red_state; [|close_trace].
    destruct (files w !! p1); red_state; close_trace.
Qed.

Lemma load_dataset_documentation_witness :
  load_dataset (lit "mnist") unloaded_state =
    (Ok tt,
     mkState (loaded (self unloaded_state) (lit "mnist") mnist
                (fst (best_effort_documentation (world (env unloaded_state)) (lit "mnist"))))
       (mkEnv (world (env unloaded_state))
          (trace (env unloaded_state)
           ++ EvLoadDataset (lit "mnist")
              :: snd (best_effort_documentation (world (env unloaded_state))
                        (lit "mnist"))))).
Proof.
  apply (load_dataset_documentation unloaded_state (lit "mnist") mnist).
  reflexivity.
Defined.

(** every failure of the documentation fetch leaves no documentation *)
Lemma documentation_absent_on_failure (w : World) (url : str) :
  hub_importable w = false \/
  (exists e1 e2, hub_download w url (lit "README.md") = inl e1 /\
                 hub_download w url (lit "dataset_card.md") = inl e2) \/
  (exists path, hub_download w url (lit "README.md") = inr path /\
                files w !! path = None) \/
  (exists e1 path, hub_download w url (lit "README.md") = inl e1 /\
                   hub_download w url (lit "dataset_card.md") = inr path /\
                   files w !! path = None) ->
  fst (best_effort_documentation w url) = None.
Proof.
  unfold best_effort_documentation, read_documentation.
  intros [H|[(e1 & e2 & H1 & H2)|[(p & H1 & H2)|(e1 & p & H1 & H2 & H3)]]].
  - now rewrite H.
  - rewrite H1, H2. now destruct (hub_importable w).
  - rewrite H1. destruct (hub_importable w); [|reflexivity].
    destruct (truthy p); [exact H2|reflexivity].
  - rewrite H1, H2. destruct (hub_importable w); [|reflexivity].
    destruct (truthy p); [exact H3|reflexivity].
Qed.

(** ** Navigation in the generated viewer *)

Lemma count_occ_range (a : Z) (start len : nat) (k : Z) :
  count_occ Z.eq_dec (List.map (fun i => (a + Z.of_nat i)%Z) (seq start len)) k
  = if ((a + Z.of_nat start <=? k) && (k <? a + Z.of_nat start + Z.of_nat len))%Z
    then 1%nat else 0%nat.
Proof.
  revert start. induction len as [|len IH]; intros start.
  - cbn [seq List.map count_occ].
    destruct (_ && _)%Z eqn:E; [|reflexivity].
    apply andb_true_iff in E as [E1%Z.leb_le E2%Z.ltb_lt]. lia.
  - cbn [seq List.map count_occ]. rewrite IH.
    destruct (Z.eq_dec (a + Z.of_nat start)%Z k) as [E|E];
      repeat match goal with
             | |- context [((?x <=? ?y) && (?u <? ?v))%Z] =>
                 destruct (Z.leb_spec x y), (Z.ltb_spec u v); cbn [andb]
             end; try reflexivity; lia.
Qed.

(** C5. For a split of length [n] with at least one row: Next from
    [n - 1] gives 0 and Previous from 0 gives [n - 1], both being the
    index moved by one modulo [n]; Random draws every index of
    [0, n - 1] with probability [1/n] and nothing else; and the index
    returned by the go-to input lies in [0, n - 1]. *)
Theorem navigation_arithmetic (n : Z) :
  (0 < n)%Z ->
  on_next (n - 1) n = inr 0%Z /\
  on_previous 0 n = inr (n - 1)%Z /\
  (forall i, on_next i n = inr ((i + 1) mod n)%Z /\
             on_previous i n = inr ((i - 1) mod n)%Z) /\
  (exists d, on_random n = inr d /\
     forall k, probability d k ==
               if ((0 <=? k) && (k <? n))%Z then 1 # Z.to_pos n else 0) /\
  (forall i entered r, go_to_index i n entered = inr r -> (0 <= r <= n - 1)%Z).
Proof.
  intros Hn.
  assert (Hz : (n =? 0)%Z = false) by (apply Z.eqb_neq; lia).
  unfold on_next, on_previous, py_mod. rewrite Hz.
  repeat split.
  - f_equal. replace (n - 1 + 1)%Z with n by lia. apply Z_mod_same_full.
  - f_equal. replace (0 - 1)%Z with (-1)%Z by lia.
    rewrite <- (Z.mod_unique (-1) n (-1) (n - 1)); [reflexivity| lia | lia].
  - unfold on_random, randint.
    destruct (Z.ltb_spec (n - 1) 0) as [|_]; [lia|].
    eexists; split; [reflexivity|]. intros k.
    unfold probability. rewrite count_occ_range, length_map, length_seq.
    replace (n - 1 - 0 + 1)%Z with n by lia.
    replace (0 + Z.of_nat 0 + Z.of_nat (Z.to_nat n))%Z with n by lia.
    replace (0 + Z.of_nat 0)%Z with 0%Z by lia.
    destruct ((0 <=? k) && (k <? n))%Z.
    + destruct n as [|p|p]; try lia.
      change (Z.to_nat (Z.pos p)) with (Pos.to_nat p).
      rewrite Pos2Nat.id. reflexivity.
    + reflexivity.
  - unfold go_to_index, number_input in H.
    destruct (Z.ltb_spec i 0), (Z.ltb_spec (n - 1) i); cbn in H; try discriminate;
      destruct entered; injection H as <-; lia.
  - unfold go_to_index, number_input in H.
    destruct (Z.ltb_spec i 0), (Z.ltb_spec (n - 1) i); cbn in H; try discriminate;
      destruct entered; injection H as <-; lia.
Qed.

Lemma navigation_arithmetic_witness :
  on_next (5 - 1) 5 = inr 0%Z /\
  on_previous 0 5 = inr (5 - 1)%Z /\
  (forall i, on_next i 5 = inr ((i + 1) mod 5)%Z /\
             on_previous i 5 = inr ((i - 1) mod 5)%Z) /\
  (exists d, on_random 5 = inr d /\
     forall k, probability d k ==
               if ((0 <=? k) && (k <? 5))%Z then 1 # Z.to_pos 5 else 0) /\
  (forall i entered r, go_to_index i 5 entered = inr r -> (0 <= r <= 5 - 1)%Z).
Proof. apply (navigation_arithmetic 5). lia. Defined.

(** * Further properties *)

(** ** The viewer path, continued *)

Lemma get_viewer_path_run (s : State) (split : str) :
  _get_viewer_path split s =
    match dataset_name (self s) with
    | Some name => (Ok (viewer_path_of name split), s)
    | None => (Raise (AttributeError (lit "'NoneType' object has no attribute 'replace'")), s)
    end.
Proof. unfold _get_viewer_path, bind, get_self. now destruct (dataset_name (self s)). Qed.

Lemma get_viewer_path_self (s s' : State) (split path : str) :
  self s' = self s ->
  _get_viewer_path split s = (Ok path, s) ->
  _get_viewer_path split s' = (Ok path, s').
Proof.
  intros Hs. rewrite !get_viewer_path_run, Hs.
  destruct (dataset_name (self s)); [|discriminate]. now intros [= ->].
Qed.

Lemma slash_to_underscore_idem c :
  slash_to_underscore (slash_to_underscore c) = slash_to_underscore c.
Proof.
  unfold slash_to_underscore. destruct (N.eqb_spec c slash) as [->|]; [reflexivity|].
  destruct (N.eqb_spec c slash); [contradiction|reflexivity].
Qed.

Lemma no_slash_after_replace name : ~ In slash (List.map slash_to_underscore name).
Proof.
  intros H. apply in_map_iff in H as (c & Hc & _). unfold slash_to_underscore in Hc.
  destruct (N.eqb_spec c slash); [discriminate|congruence].
Qed.

(** Two dataset names that differ only in [/] against [_], such as
    [user/data] and [user_data], are given the same viewer path for
    every split: their viewers share one cache file. *)
Theorem viewer_path_collision (s1 s2 : State) (name split : str) :
  dataset_name (self s1) = Some name ->
  dataset_name (self s2) = Some (List.map slash_to_underscore name) ->
  fst (_get_viewer_path split s1) = fst (_get_viewer_path split s2).
Proof.
  intros H1 H2. rewrite !get_viewer_path_run, H1, H2. cbn [fst]. f_equal.
  unfold viewer_path_of. rewrite !replace_slash, List.map_map.
  f_equal. f_equal. apply List.map_ext. intros c. now rewrite slash_to_underscore_idem.
Qed.

Lemma viewer_path_collision_witness :
  fst (_get_viewer_path (lit "train") slash_named_state)
  = fst (_get_viewer_path (lit "train") underscore_named_state).
Proof.
  apply (viewer_path_collision slash_named_state underscore_named_state
           (lit "user/data") (lit "train")); reflexivity.
Defined.

(** The dataset name never adds a directory to the viewer path: the path
    holds a [/] exactly when the split does. *)
Theorem viewer_path_separator (s : State) (split path : str) :
  fst (_get_viewer_path split s) = Ok path ->
  (In slash path <-> In slash split).
Proof.
  rewrite get_viewer_path_run. destruct (dataset_name (self s)) as [name|]; [|discriminate].
  cbn [fst]. intros [= <-]. unfold viewer_path_of. rewrite replace_slash.
  rewrite !in_app_iff. split.
  - intros [H|[H|[H|[H|H]]]]; try exact H.
    + exfalso. vm_compute in H. intuition discriminate.
    + exfalso. exact (no_slash_after_replace _ H).
    + exfalso. vm_compute in H. intuition discriminate.
    + exfalso. vm_compute in H. intuition discriminate.
  - intros H. right. right. right. now left.
Qed.

Lemma viewer_path_separator_witness :
  In slash (lit "view_mnist_train.py") <-> In slash (lit "train").
Proof.
  apply (viewer_path_separator sample_state (lit "train") (lit "view_mnist_train.py")).
  reflexivity.
Defined.

(** ** The shape of cleaned code *)

Lemma lstrip_shape (s : str) :
  exists pre, s = pre ++ lstrip s /\ forallb isspace pre = true.
Proof.
  induction s as [|c s (pre & IH & Hpre)].
  - now exists [].
  - cbn [lstrip]. destruct (isspace c) eqn:E.
    + exists (c :: pre). cbn. rewrite E, Hpre. split; [now rewrite <- IH|reflexivity].
    + now exists [].
Qed.

Lemma forallb_rev {A} (f : A -> bool) (l : list A) : forallb f (rev l) = forallb f l.
Proof.
  induction l as [|x l IH]; [reflexivity|].
  cbn. rewrite forallb_app, IH. cbn. rewrite andb_true_r. apply andb_comm.
Qed.

Lemma strip_shape (s : str) :
  exists pre post,
    s = pre ++ strip s ++ post /\
    forallb isspace pre = true /\ forallb isspace post = true.
Proof.
  destruct (lstrip_shape s) as (pre & Hs & Hpre).
  destruct (lstrip_shape (rev (lstrip s))) as (post & Hr & Hpost).
  exists pre, (rev post). unfold strip, rstrip. split; [|split].
  - rewrite <- rev_app_distr, <- Hr, rev_involutive. exact Hs.
  - exact Hpre.
  - now rewrite forallb_rev.
Qed.

Lemma suffix_cases (y suf : str) :
  (exists c, y = c ++ suf) \/ (forall c, y <> c ++ suf).
Proof.
  induction y as [|x y [[c ->]|IH]].
  - destruct suf as [|a suf]; [left; now exists []|].
    right. intros [|? ?]; discriminate.
  - left. now exists (x :: c).
  - destruct (decide (x :: y = suf)) as [<-|Hne].
    + left. now exists [].
    + right. intros [|a c]; cbn; [exact Hne|].
      intros [= -> H]. now apply (IH c).
Qed.

Section CleanCodeShape.
Variable uni_alnum : N -> bool.
Local Abbreviation word := (isword uni_alnum).
Local Abbreviation matches := (match_here uni_alnum).
Local Abbreviation delete_from := (sub_from uni_alnum).
Local Abbreviation clean := (_clean_code uni_alnum).

Lemma word_star_length s b n :
  word_star uni_alnum (matches [RChar nl]) s b = Some n ->
  exists w rest, forallb word w = true /\ s = w ++ nl :: rest /\ n = S (length w).
Proof.
  revert b n. induction s as [|c s IH]; intros b n H.
  - discriminate.
  - assert (Hk : matches [RChar nl] (c :: s) b = Some n ->
                 exists w rest, forallb word w = true /\ c :: s = w ++ nl :: rest
                                /\ n = S (length w)).
    { cbn. destruct (N.eqb_spec c nl) as [->|]; [|discriminate].
      intros [= <-]. now exists [], s. }
    cbn [word_star] in H. destruct (word c) eqn:Hc; [|auto].
    destruct (word_star uni_alnum (matches [RChar nl]) s false) as [m|] eqn:E; [|auto].
    destruct (IH _ _ E) as (w & rest & Hw & -> & ->). injection H as <-.
    exists (c :: w), rest. cbn. now rewrite Hc, Hw.
Qed.

Lemma leading_match_length s b n :
  matches leading_fence_re s b = Some n ->
  exists w rest, forallb word w = true /\ s = fence ++ w ++ nl :: rest
                 /\ n = length (fence ++ w ++ [nl]).
Proof.
  unfold leading_fence_re. cbn [match_here].
  destruct b; [|discriminate].
  destruct s as [|c1 [|c2 [|c3 s]]]; cbn; try discriminate;
    destruct (N.eqb_spec c1 backtick) as [->|]; try discriminate.
  - cbn. destruct (N.eqb_spec c2 backtick) as [->|]; discriminate.
  - cbn. destruct (N.eqb_spec c2 backtick) as [->|]; [|discriminate].
    cbn. destruct (N.eqb_spec c3 backtick) as [->|]; [|discriminate].
    cbn -[word_star].
    destruct (word_star uni_alnum _ s false) as [m|] eqn:E; [|discriminate].
    intros [= <-]. destruct (word_star_length _ _ _ E) as (w & rest & Hw & -> & ->).
    exists w, rest. split; [exact Hw|]. split; [reflexivity|].
    rewrite length_app. cbn. lia.
Qed.

(** the first substitution removes a fence line at the start, or nothing *)
Lemma sub_leading_cases (t : str) :
  re_sub_empty uni_alnum leading_fence_re t = t \/
  exists w rest, forallb word w = true /\ t = fence ++ w ++ nl :: rest /\
                 re_sub_empty uni_alnum leading_fence_re t = rest.
Proof.
  unfold re_sub_empty. destruct t as [|c t]; [now left|].
  cbn [sub_from].
  destruct (matches leading_fence_re (c :: t) true) as [[|n]|] eqn:E.
  - left. now rewrite sub_leading_rest.
  - right. destruct (leading_match_length _ _ _ E) as (w & rest & Hw & Ht & Hn).
    exists w, rest. split; [exact Hw|]. split; [exact Ht|].
    cbn in Ht. injection Ht as -> ->.
    rewrite !length_app in Hn. cbn in Hn.
    replace (backtick :: backtick :: w ++ nl :: rest)
      with ((backtick :: backtick :: w ++ [nl]) ++ rest)
      by (cbn; now rewrite <- app_assoc).
    replace n with (length (backtick :: backtick :: w ++ [nl]))
      by (cbn; rewrite !length_app; cbn; lia).
    rewrite sub_from_skip by discriminate. apply sub_leading_rest.
  - left. now rewrite sub_leading_rest.
Qed.

(** the second substitution removes a closing fence at the end, or
    nothing, when the text does not end with a newline *)
Lemma sub_trailing_cases (y : str) b :
  (forall x, y <> x ++ [nl]) ->
  delete_from trailing_fence_re b 0 y = y \/
  exists c, y = c ++ nl :: fence /\ delete_from trailing_fence_re b 0 y = c.
Proof.
  intros Hnl. destruct (suffix_cases y (nl :: fence)) as [[c ->]|Hn].
  - right. exists c. split; [reflexivity|apply sub_trailing_wrapped].
  - left.
    assert (H : forall pre t b' n, y = pre ++ t ->
                matches trailing_fence_re t b' <> Some n).
    { intros pre t b' n -> E. apply trailing_match_inv in E as [->| ->].
      - now apply (Hn pre).
      - apply (Hnl (pre ++ nl :: fence)). cbn. now rewrite <- app_assoc. }
    apply sub_from_no_match.
    + intros n. apply (H [] y); reflexivity.
    + intros pre t n -> _. now apply (H pre t).
Qed.

(** Whatever the text, [_clean_code] only removes from its two ends:
    white space, then at most one fence line (three backticks, word
    characters, a newline) in front and at most one closing fence (a
    newline, three backticks) behind.  The text in between is returned
    as it is. *)
Theorem clean_code_shape (s : str) :
  exists pre a b post,
    s = pre ++ a ++ clean s ++ b ++ post /\
    forallb isspace pre = true /\ forallb isspace post = true /\
    (a = [] \/ exists w, forallb word w = true /\ a = fence ++ w ++ [nl]) /\
    (b = [] \/ b = nl :: fence).
Proof.
  destruct (strip_shape s) as (pre & post & Hs & Hpre & Hpost).
  assert (Hlast : forall x, strip s <> x ++ [nl]).
  { intros x E. apply strip_last in E. discriminate E. }
  assert (K : exists a b,
    strip s = a ++ clean s ++ b /\
    (a = [] \/ exists w, forallb word w = true /\ a = fence ++ w ++ [nl]) /\
    (b = [] \/ b = nl :: fence)).
  { unfold _clean_code.
    destruct (sub_leading_cases (strip s)) as [->|(w & rest & Hw & Ht & ->)].
    - destruct (sub_trailing_cases (strip s) true Hlast) as [E|(c & Hc & E)];
        unfold re_sub_empty; rewrite E.
      + exists [], []. rewrite List.app_nil_r. auto.
      + exists [], (nl :: fence). auto.
    - assert (Hrest : forall x, rest <> x ++ [nl]).
      { intros x ->. apply (Hlast (fence ++ w ++ nl :: x)). rewrite Ht.
        now rewrite <- !app_assoc. }
      destruct (sub_trailing_cases rest true Hrest) as [E|(c & Hc & E)];
        unfold re_sub_empty; rewrite E.
      + exists (fence ++ w ++ [nl]), []. rewrite List.app_nil_r.
        split; [rewrite Ht; now rewrite <- !app_assoc|]. split; [right; now exists w|now left].
      + exists (fence ++ w ++ [nl]), (nl :: fence).
        split; [rewrite Ht, Hc; now rewrite <- !app_assoc|].
        split; [right; now exists w|now right]. }
  destruct K as (a & b & Ht & Ha & Hb).
  exists pre, a, b, post. split; [|auto].
  rewrite Hs at 1. rewrite Ht at 1. now rewrite <- !app_assoc.
Qed.
End CleanCodeShape.

(** ** The viewer template *)

(** a template that is filled without error ends outside every field,
    so the text after it is filled on its own *)
Lemma format_from_app (kw : list (str * str)) (a b : str) :
  forall mode h,
    format_from kw mode a = inr h ->
    format_from kw mode (a ++ b) = res_map (app h) (format_from kw FText b).
Proof.
  induction a as [|c a IH]; intros mode h H.
  - destruct mode; try discriminate H. injection H as <-. cbn [app].
    destruct (format_from kw FText b); reflexivity.
  - assert (K : forall m f, (forall x y, f (x ++ y) = f x ++ y) ->
                res_map f (format_from kw m a) = inr h ->
                res_map f (format_from kw m (a ++ b))
                = res_map (app h) (format_from kw FText b)).
    { intros m f Hf E. destruct (format_from kw m a) as [x|h'] eqn:E'; [discriminate E|].
      injection E as <-. rewrite (IH _ _ E').
      destruct (format_from kw FText b); cbn [res_map]; [reflexivity|now rewrite Hf]. }
    cbn [app format_from] in *. destruct mode.
    + destruct (c =? lbrace); [now apply IH|].
      destruct (c =? rbrace); [now apply IH|]. now apply K.
    + destruct (c =? lbrace); [now apply K|].
      destruct (c =? rbrace); [discriminate H|]. now apply IH.
    + destruct (c =? rbrace); [|now apply IH].
      destruct (kw_lookup kw (rev rev_name)); [|discriminate H].
      apply K; [intros; apply app_assoc|exact H].
    + destruct (c =? rbrace); [now apply K|discriminate H].
Qed.

Lemma viewer_template_layout (name split code : str) :
  str_format viewer_template
    [ (lit "dataset_name", name); (lit "split", split); (lit "viewer_code", code) ]
  = inr (viewer_header name split ++ code ++ viewer_trailer).
Proof.
  unfold str_format.
  set (k := (length viewer_template
             - length (lit "{viewer_code}" ++ viewer_trailer))%nat).
  assert (Ht : viewer_template
               = firstn k viewer_template ++ lit "{viewer_code}" ++ viewer_trailer)
    by (vm_compute; reflexivity).
  rewrite Ht at 1.
  rewrite (format_from_app _ _ _ FText (viewer_header name split)).
  - assert (Hc : format_from
                   [ (lit "dataset_name", name); (lit "split", split);
                     (lit "viewer_code", code) ] FText
                   (lit "{viewer_code}" ++ viewer_trailer)
                 = inr (code ++ viewer_trailer))
      by (vm_compute; reflexivity).
    now rewrite Hc.
  - vm_compute. reflexivity.
Qed.

(** ** Failures of loading and of configuration *)

Lemma load_dataset_result (s : State) (url : str) :
  load_dataset url s =
    match hub_load_dataset (world (env s)) url with
    | inl x =>
        (Raise x,
         mkState (set_dataset_name (Some url) (self s))
           (mkEnv (world (env s)) (trace (env s) ++ [EvLoadDataset url])))
    | inr d =>
        (Ok tt,
         mkState (loaded (self s) url d (fst (best_effort_documentation (world (env s)) url)))
           (mkEnv (world (env s))
              (trace (env s)
               ++ EvLoadDataset url :: snd (best_effort_documentation (world (env s)) url))))
    end.
Proof.
  destruct (hub_load_dataset (world (env s)) url) as [x|d] eqn:Hd.
  - destruct s as [dv [w t]]. cbn [self env world trace] in *.
    unfold load_dataset, load_dataset_ext, set_self, log, get_world, of_result.
    unfold bind, lift, modify, ret, raise. red_state. rewrite Hd. reflexivity.
  - destruct s as [dv [w t]]. cbn [self env world trace] in *.
    unfold load_dataset, best_effort_documentation, read_documentation, loaded.
    unfold load_dataset_ext, import_hub, hf_hub_download, read_text, set_self, log,
      get_world, of_result.
    unfold bind, try_except, lift, modify, ret, raise.
    red_state. rewrite Hd. red_state.
    destruct (hub_importable w); red_state; [|reflexivity].
    destruct (hub_download w url (lit "README.md")) as [e1|p1]; red_state.
    + destruct (hub_download w url (lit "dataset_card.md")) as [e2|p2]; red_state.
      * close_trace.
      * destruct (truthy p2); red_state; [|close_trace].
        destruct (files w !! p2); red_state; close_trace.
    + destruct (truthy p1); red_state; [|close_trace].
      destruct (files w !! p1); red_state; close_trace.
Qed.

(** When [datasets.load_dataset] fails, its exception leaves
    [load_dataset] as it is; by then the viewer already carries the new
    dataset name, while its table is still the old one, and the
    documentation was not asked for. *)
Theorem load_dataset_failure (s : State) (url : str) (e : exn) :
  hub_load_dataset (world (env s)) url = inl e ->
  load_dataset url s =
    (Raise e,
     mkState (set_dataset_name (Some url) (self s))
       (mkEnv (world (env s)) (trace (env s) ++ [EvLoadDataset url]))).
Proof. intros H. rewrite load_dataset_result, H. reflexivity. Qed.

Lemma load_dataset_failure_witness :
  load_dataset (lit "no/such") sample_state =
    (Raise (LibraryError (lit "dataset not found")),
     mkState (set_dataset_name (Some (lit "no/such")) (self sample_state))
       (mkEnv (world (env sample_state))
          (trace (env sample_state) ++ [EvLoadDataset (lit "no/such")]))).
Proof.
  apply (load_dataset_failure sample_state (lit "no/such")
           (LibraryError (lit "dataset not found"))).
  reflexivity.
Defined.

Lemma from_environment_cases (e : Env) :
  (exists x, from_environment e = (Raise x, e)) \/
  (exists model, from_environment e = (Ok (DataViewer_init (Some model)), e)).
Proof.
  rewrite from_environment_run.
  destruct (credential (world e) (lit "ANTHROPIC_API_KEY")) as [ka|].
  - unfold Claude_init, get_world, bind, ret, raise.
    destruct (anthropic_installed (world e)); [right|left]; eexists; reflexivity.
  - destruct (credential (world e) (lit "OPENAI_API_KEY")) as [ko|].
    + unfold GPT4_init, get_world, bind, ret, raise.
      destruct (openai_installed (world e)); [right|left]; eexists; reflexivity.
    + left. eexists; reflexivity.
Qed.

(** With an Anthropic key set, a missing [anthropic] package ends
    [from_environment] with the import error of the Claude client: the
    OpenAI key is not tried, whatever it holds. *)
Theorem missing_package_no_fallback (e : Env) (key : str) :
  credential (world e) (lit "ANTHROPIC_API_KEY") = Some key ->
  anthropic_installed (world e) = false ->
  from_environment e =
    (Raise (ImportError
       (lit "Anthropic is not installed. Please install it using 'pip install anthropic'.")),
     e).
Proof.
  intros Hk Hi. rewrite from_environment_run, Hk.
  unfold Claude_init, get_world, bind, raise. now rewrite Hi.
Qed.

Lemma missing_package_no_fallback_witness :
  from_environment (mkEnv no_anthropic_world []) =
    (Raise (ImportError
       (lit "Anthropic is not installed. Please install it using 'pip install anthropic'.")),
     mkEnv no_anthropic_world []).
Proof.
  apply (missing_package_no_fallback (mkEnv no_anthropic_world []) (lit "sk-ant-1")).
  - vm_compute. reflexivity.
  - reflexivity.
Defined.

(** ** Failures inside [generate_viewer] *)

Lemma cache_miss_test (files : gmap str str) (path : str) (force : bool) :
  force = true \/ files !! path = None ->
  bool_decide (is_Some (files !! path)) && negb force = false.
Proof.
  intros [->| ->]; [apply andb_false_r|].
  rewrite bool_decide_eq_false_2; [reflexivity|]. intros [x H]. discriminate.
Qed.

Lemma generate_code_fails model prompt system e x :
  llm_service (world e) (backend_of model) (api_key_of model) prompt system = inl x ->
  generate_code model prompt system e =
    (Raise x, mkEnv (world e) (trace e ++ [EvGenerateCode (backend_of model) prompt system])).
Proof.
  intros H. unfold generate_code, bind, log, modify, get_world. cbn [world trace].
  now rewrite H.
Qed.

Lemma write_file_refused path content e :
  write_refused (world e) path = true ->
  write_file path content e = (Raise (OSError (lit "cannot open file for writing")), e).
Proof. intros H. unfold write_file, bind, get_world. now rewrite H. Qed.

Section ViewerFailures.
Variable uni_alnum : N -> bool.
Variable json_dumps : list (str * str) -> str.
Local Abbreviation gv := (generate_viewer uni_alnum json_dumps).

(** Past the cache check, a split the dataset does not have ends
    [generate_viewer] with [KeyError], and a split without rows with
    [IndexError]: only the existence check has happened, the model was
    not asked and no file was touched. *)
Theorem generate_viewer_bad_split (s : State) (split extra path : str) (force : bool)
        d model :
  data (self s) = Some d ->
  llm (self s) = Some model ->
  _get_viewer_path split s = (Ok path, s) ->
  force = true \/ files (world (env s)) !! path = None ->
  assoc split d = None \/ assoc split d = Some [] ->
  gv split extra force s =
    (Raise match assoc split d with
           | None => KeyError split
           | Some _ => IndexError (lit "Invalid key: 0 is out of bounds for size 0")
           end,
     mkState (self s) (mkEnv (world (env s)) (trace (env s) ++ [EvExists path]))).
Proof.
  intros Hd Hm Hp Hmiss Hs.
  unfold generate_viewer. rewrite (bind_Ok _ _ s (self s) s) by reflexivity.
  rewrite Hd, Hm.
  rewrite (bind_Ok _ _ _ _ _ Hp).
  rewrite (bind_Ok _ _ _ _ _ (lift_Ok _ _ _ _ (os_path_exists_run _ _))).
  rewrite (cache_miss_test _ _ _ Hmiss).
  apply bind_Raise. unfold first_instance.
  destruct Hs as [-> | ->]; reflexivity.
Qed.

(** When the model call fails, its exception leaves [generate_viewer] as
    it is, and when the call returns no text the cleaning raises
    [AttributeError]; in both cases the call is the last event, so the
    progress callback was not invoked and no file was opened. *)
Theorem model_failure_keeps_files (s : State) (split extra path : str) (force : bool)
        d model sample readme prompt answer :
  data (self s) = Some d ->
  llm (self s) = Some model ->
  _get_viewer_path split s = (Ok path, s) ->
  force = true \/ files (world (env s)) !! path = None ->
  first_instance d split = inr sample ->
  dataset_readme (self s) = Some readme ->
  make_prompt json_dumps readme sample extra = inr prompt ->
  llm_service (world (env s)) (backend_of model) (api_key_of model) prompt system_message
    = answer ->
  (forall code, answer <> inr (Some code)) ->
  gv split extra force s =
    (Raise match answer with
           | inl e => e
           | inr _ => AttributeError (lit "'NoneType' object has no attribute 'strip'")
           end,
     mkState (self s)
       (mkEnv (world (env s))
          (trace (env s)
           ++ [EvExists path; EvGenerateCode (backend_of model) prompt system_message]))).
Proof.
  intros Hd Hm Hp Hmiss Hs Hr Hpr Hllm Hbad.
  unfold generate_viewer. rewrite (bind_Ok _ _ s (self s) s) by reflexivity.
  rewrite Hd, Hm.
  rewrite (bind_Ok _ _ _ _ _ Hp).
  rewrite (bind_Ok _ _ _ _ _ (lift_Ok _ _ _ _ (os_path_exists_run _ _))).
  rewrite (cache_miss_test _ _ _ Hmiss), Hs.
  rewrite (bind_Ok (of_result (inr sample)) _ _ sample _) by reflexivity.
  rewrite Hr.
  rewrite (bind_Ok (ret readme) _ _ readme _) by reflexivity.
  rewrite Hpr.
  rewrite (bind_Ok (of_result (inr prompt)) _ _ prompt _) by reflexivity.
  destruct answer as [e|[code|]].
  - rewrite (bind_Raise _ _ _ _ _
      (lift_Raise _ (mkState (self s) (mkEnv (world (env s)) (trace (env s) ++ [EvExists path])))
         _ _ (generate_code_fails model prompt system_message
                (mkEnv (world (env s)) (trace (env s) ++ [EvExists path])) _ Hllm))).
    cbn [self env world trace]. now rewrite <- app_assoc.
  - now destruct (Hbad code).
  - rewrite (bind_Ok _ _ _ _ _
      (lift_Ok _ (mkState (self s) (mkEnv (world (env s)) (trace (env s) ++ [EvExists path])))
         _ _ (generate_code_run model prompt system_message
                (mkEnv (world (env s)) (trace (env s) ++ [EvExists path])) _ Hllm))).
    unfold bind at 1, raise. cbn [self env world trace]. now rewrite <- app_assoc.
Qed.

(** When the viewer file cannot be opened for writing, [generate_viewer]
    ends with [OSError] after the model was asked and the progress
    callback has run: the answer is lost, the world is the one the
    callback left, and no file was written. *)
Theorem refused_write_changes_no_file (s : State) (split extra path : str) (force : bool)
        d model sample readme prompt code w2 :
  data (self s) = Some d ->
  llm (self s) = Some model ->
  _get_viewer_path split s = (Ok path, s) ->
  force = true \/ files (world (env s)) !! path = None ->
  first_instance d split = inr sample ->
  dataset_readme (self s) = Some readme ->
  make_prompt json_dumps readme sample extra = inr prompt ->
  llm_service (world (env s)) (backend_of model) (api_key_of model) prompt system_message
    = inr (Some code) ->
  callback_result (self s) (world (env s)) = (Ok tt, w2) ->
  write_refused w2 path = true ->
  (exists msg, fst (gv split extra force s) = Raise (OSError msg)) /\
  world (env (snd (gv split extra force s))) = w2 /\
  model_calls (trace (env (snd (gv split extra force s)))) = S (model_calls (trace (env s))) /\
  written_paths (trace (env (snd (gv split extra force s)))) = written_paths (trace (env s)).
Proof.
  intros Hd Hm Hp Hmiss Hs Hr Hpr Hllm Hcb Hw.
  unfold generate_viewer. rewrite (bind_Ok _ _ s (self s) s) by reflexivity.
  rewrite Hd, Hm.
  rewrite (bind_Ok _ _ _ _ _ Hp).
  rewrite (bind_Ok _ _ _ _ _ (lift_Ok _ _ _ _ (os_path_exists_run _ _))).
  rewrite (cache_miss_test _ _ _ Hmiss), Hs.
  rewrite (bind_Ok (of_result (inr sample)) _ _ sample _) by reflexivity.
  rewrite Hr.
  rewrite (bind_Ok (ret readme) _ _ readme _) by reflexivity.
  rewrite Hpr.
  rewrite (bind_Ok (of_result (inr prompt)) _ _ prompt _) by reflexivity.
  rewrite (bind_Ok _ _ _ _ _
    (lift_Ok _ (mkState (self s) (mkEnv (world (env s)) (trace (env s) ++ [EvExists path])))
       _ _ (generate_code_run model prompt system_message
              (mkEnv (world (env s)) (trace (env s) ++ [EvExists path])) _ Hllm))).
  rewrite (bind_Ok (ret _) _ _ (_clean_code uni_alnum code) _) by reflexivity.
  unfold callback_result in Hcb.
  destruct (progress_callback (self s)) as [cb|].
  - rewrite (bind_Ok _ _ _ tt
      (mkState (self s) (mkEnv w2 (trace (env s)
         ++ [EvExists path; EvGenerateCode (backend_of model) prompt system_message]
         ++ [EvCallback])))).
    + rewrite (bind_Raise _ _ _ _ _
        (lift_Raise _ (mkState (self s) (mkEnv w2 _)) _ _
           (write_file_refused path _ (mkEnv w2 _) Hw))).
      cbn [fst snd self env world trace]. repeat split.
      * eexists. reflexivity.
      * rewrite !model_calls_app. cbn. lia.
      * rewrite !written_paths_app. cbn. rewrite ?List.app_nil_r. reflexivity.
    + unfold lift, invoke, bind, log, modify. cbn [self env world trace].
      rewrite Hcb. now rewrite <- !app_assoc.
  - injection Hcb as <-.
    rewrite (bind_Ok (ret tt) _ _ tt _) by reflexivity.
    rewrite (bind_Raise _ _ _ _ _
      (lift_Raise _ (mkState (self s) (mkEnv (world (env s)) _)) _ _
         (write_file_refused path _ (mkEnv (world (env s)) _) Hw))).
    cbn [fst snd self env world trace]. repeat split.
    + eexists. reflexivity.
    + rewrite !model_calls_app. cbn. lia.
    + rewrite !written_paths_app. cbn. rewrite ?List.app_nil_r. reflexivity.
Qed.

(** A first generation whose write completes leaves the viewer file
    in place, and the next call without [force] is a cache hit on it:
    it returns the same path without asking the model again and leaves
    the world as it is, whatever the new extra prompt says. *)
Theorem first_generation_then_cache_hit (s : State) (split extra extra' path : str)
        d model sample readme prompt code w2 :
  data (self s) = Some d ->
  llm (self s) = Some model ->
  _get_viewer_path split s = (Ok path, s) ->
  files (world (env s)) !! path = None ->
  first_instance d split = inr sample ->
  dataset_readme (self s) = Some readme ->
  make_prompt json_dumps readme sample extra = inr prompt ->
  llm_service (world (env s)) (backend_of model) (api_key_of model) prompt system_message
    = inr (Some code) ->
  callback_result (self s) (world (env s)) = (Ok tt, w2) ->
  write_refused w2 path = false ->
  write_failure w2 path
    (viewer_header (str_of_opt (dataset_name (self s))) split
     ++ _clean_code uni_alnum code ++ viewer_trailer) = None ->
  fst (gv split extra false s) = Ok path /\
  model_calls (trace (env (snd (gv split extra false s))))
    = S (model_calls (trace (env s))) /\
  fst (gv split extra' false (snd (gv split extra false s))) = Ok path /\
  model_calls (trace (env (snd (gv split extra' false (snd (gv split extra false s))))))
    = S (model_calls (trace (env s))) /\
  world (env (snd (gv split extra' false (snd (gv split extra false s)))))
    = world (env (snd (gv split extra false s))).
Proof.
  intros Hd Hm Hp Hf Hs Hr Hpr Hllm Hcb Hw Hwf.
  pose proof (viewer_template_layout (str_of_opt (dataset_name (self s))) split
                (_clean_code uni_alnum code)) as Hfmt.
  pose proof (regenerate_run uni_alnum json_dumps s split extra path false d model sample
                readme prompt code w2 _ Hd Hm Hp
                (cache_miss_test _ _ _ (or_intror Hf)) Hs Hr Hpr Hllm Hcb Hw Hfmt Hwf) as H1.
  rewrite H1. cbn [fst snd].
  set (s1 := mkState (self s) _) in *.
  assert (Hc1 : model_calls (trace (env s1)) = S (model_calls (trace (env s)))).
  { unfold s1. cbn [env trace]. rewrite !model_calls_app. unfold callback_events.
    destruct (progress_callback (self s)); cbn; lia. }
  pose proof (cache_hit_run uni_alnum json_dumps s1 split extra' path d model) as H2.
  rewrite H2.
  - cbn [fst snd env trace world]. repeat split; [exact Hc1|].
    rewrite model_calls_app, Hc1. cbn. lia.
  - exact Hd.
  - exact Hm.
  - now apply (get_viewer_path_self s).
  - unfold s1. cbn [env world files with_files]. rewrite lookup_insert_eq. eexists; reflexivity.
Qed.

(** On a cache hit [run_viewer] launches streamlit on the cached file:
    the trace gains the existence check, the two notices and the
    command, and nothing else changes. *)
Theorem run_viewer_cache_hit (s : State) (split extra path : str) d model :
  data (self s) = Some d ->
  llm (self s) = Some model ->
  _get_viewer_path split s = (Ok path, s) ->
  is_Some (files (world (env s)) !! path) ->
  run_viewer uni_alnum json_dumps split extra false s =
    (Ok tt,
     mkState (self s)
       (mkEnv (world (env s))
          (trace (env s) ++ cache_hit_events path
           ++ [EvSystem (lit "streamlit run " ++ path)]))).
Proof.
  intros Hd Hm Hp Hf. unfold run_viewer.
  rewrite (bind_Ok _ _ _ _ _ (cache_hit_run uni_alnum json_dumps s split extra path d model
                                Hd Hm Hp Hf)).
  unfold lift, os_system, log, modify. cbn [self env world trace].
  now rewrite <- app_assoc.
Qed.
End ViewerFailures.

Lemma generate_viewer_bad_split_witness :
  generate_viewer ascii_alnum flat_json (lit "test") [] true sample_state =
    (Raise (IndexError (lit "Invalid key: 0 is out of bounds for size 0")),
     mkState (self sample_state)
       (mkEnv (world (env sample_state))
          (trace (env sample_state) ++ [EvExists (lit "view_mnist_test.py")]))).
Proof.
  apply (generate_viewer_bad_split ascii_alnum flat_json sample_state
           (lit "test") [] (lit "view_mnist_test.py") true mnist (GPT4 (lit "sk-1"))).
  - reflexivity.
  - reflexivity.
  - reflexivity.
  - left. reflexivity.
  - right. reflexivity.
Defined.

Lemma model_failure_keeps_files_witness :
  generate_viewer ascii_alnum flat_json (lit "train") [] false failing_model_state =
    (Raise (LibraryError (lit "service unavailable")),
     mkState (self failing_model_state)
       (mkEnv (world (env failing_model_state))
          (trace (env failing_model_state)
           ++ [EvExists (lit "view_mnist_train.py");
               EvGenerateCode (backend_of (GPT4 (lit "sk-1"))) sample_prompt
                 system_message]))).
Proof.
  apply (model_failure_keeps_files ascii_alnum flat_json failing_model_state
           (lit "train") [] (lit "view_mnist_train.py") false mnist (GPT4 (lit "sk-1"))
           mnist_row None sample_prompt (inl (LibraryError (lit "service unavailable")))).
  - reflexivity.
  - reflexivity.
  - reflexivity.
  - right. reflexivity.
  - reflexivity.
  - reflexivity.
  - vm_compute. reflexivity.
  - reflexivity.
  - intros code. discriminate.
Defined.

Lemma refused_write_changes_no_file_witness :
  (exists msg,
     fst (generate_viewer ascii_alnum flat_json (lit "train") [] false read_only_state)
     = Raise (OSError msg)) /\
  world (env (snd (generate_viewer ascii_alnum flat_json (lit "train") [] false
                     read_only_state)))
  = read_only_world /\
  model_calls (trace (env (snd (generate_viewer ascii_alnum flat_json (lit "train") []
                                  false read_only_state))))
  = S (model_calls (trace (env read_only_state))) /\
  written_paths (trace (env (snd (generate_viewer ascii_alnum flat_json (lit "train") []
                                    false read_only_state))))
  = written_paths (trace (env read_only_state)).
Proof.
  apply (refused_write_changes_no_file ascii_alnum flat_json read_only_state
           (lit "train") [] (lit "view_mnist_train.py") false mnist (GPT4 (lit "sk-1"))
           mnist_row None sample_prompt sample_answer read_only_world).
  - reflexivity.
  - reflexivity.
  - reflexivity.
  - right. reflexivity.
  - reflexivity.
  - reflexivity.
  - vm_compute. reflexivity.
  - reflexivity.
  - reflexivity.
  - reflexivity.
Defined.

Lemma first_generation_then_cache_hit_witness :
  fst (generate_viewer ascii_alnum flat_json (lit "train") [] false fresh_state)
  = Ok (lit "view_mnist_train.py") /\
  model_calls (trace (env (snd (generate_viewer ascii_alnum flat_json (lit "train") []
                                  false fresh_state))))
  = S (model_calls (trace (env fresh_state))) /\
  fst (generate_viewer ascii_alnum flat_json (lit "train") (lit "show a table") false
         (snd (generate_viewer ascii_alnum flat_json (lit "train") [] false fresh_state)))
  = Ok (lit "view_mnist_train.py") /\
  model_calls
    (trace (env (snd (generate_viewer ascii_alnum flat_json (lit "train")
                        (lit "show a table") false
                        (snd (generate_viewer ascii_alnum flat_json (lit "train") [] false
                                fresh_state))))))
  = S (model_calls (trace (env fresh_state))) /\
  world (env (snd (generate_viewer ascii_alnum flat_json (lit "train")
                     (lit "show a table") false
                     (snd (generate_viewer ascii_alnum flat_json (lit "train") [] false
                             fresh_state)))))
  = world (env (snd (generate_viewer ascii_alnum flat_json (lit "train") [] false
                       fresh_state))).
Proof.
  apply (first_generation_then_cache_hit ascii_alnum flat_json fresh_state
           (lit "train") [] (lit "show a table") (lit "view_mnist_train.py")
           mnist (GPT4 (lit "sk-1")) mnist_row None sample_prompt sample_answer
           fresh_world).
  - reflexivity.
  - reflexivity.
  - reflexivity.
  - reflexivity.
  - reflexivity.
  - reflexivity.
  - vm_compute. reflexivity.
  - reflexivity.
  - reflexivity.
  - reflexivity.
  - reflexivity.
Defined.

Lemma run_viewer_cache_hit_witness :
  run_viewer ascii_alnum flat_json (lit "train") [] false sample_state =
    (Ok tt,
     mkState (self sample_state)
       (mkEnv (world (env sample_state))
          (trace (env sample_state) ++ cache_hit_events (lit "view_mnist_train.py")
           ++ [EvSystem (lit "streamlit run " ++ lit "view_mnist_train.py")]))).
Proof.
  apply (run_viewer_cache_hit ascii_alnum flat_json sample_state
           (lit "train") [] (lit "view_mnist_train.py") mnist (GPT4 (lit "sk-1"))).
  - reflexivity.
  - reflexivity.
  - reflexivity.
  - vm_compute. eexists. reflexivity.
Defined.

(** ** Every run of [generate_viewer] and [run_viewer] *)

Lemma launched_app t1 t2 : launched (t1 ++ t2) = launched t1 ++ launched t2.
Proof. unfold launched. apply flat_map_app. Qed.

Lemma bind_inv {S A B} (m : ST S A) (k : A -> ST S B) s r s' :
  bind m k s = (r, s') ->
  (exists a s1, m s = (Ok a, s1) /\ k a s1 = (r, s')) \/
  (exists x, m s = (Raise x, s') /\ r = Raise x) \/
  (m s = (Hang, s') /\ r = Hang).
Proof.
  unfold bind. destruct (m s) as [[a|x|] s1]; intros H.
  - left. now exists a, s1.
  - right. left. exists x. now inversion H.
  - right. right. now inversion H.
Qed.

Section ViewerRuns.
Variable uni_alnum : N -> bool.
Variable json_dumps : list (str * str) -> str.
Local Abbreviation gv := (generate_viewer uni_alnum json_dumps).

(** the outcomes of [generate_viewer], case by case *)
Lemma gv_cases (s s' : State) (split extra : str) (force : bool) (r : outcome str) :
  gv split extra force s = (r, s') ->
  self s' = self s /\
  launched (trace (env s')) = launched (trace (env s)) /\
  (r = Hang -> exists w2, callback_result (self s) (world (env s)) = (Hang, w2)) /\
  match r with
  | Ok p =>
      _get_viewer_path split s = (Ok p, s) /\
      is_Some (files (world (env s')) !! p) /\
      if bool_decide (is_Some (files (world (env s)) !! p)) && negb force
      then env s' = mkEnv (world (env s)) (trace (env s) ++ cache_hit_events p)
      else exists model prompt code content w2,
          llm (self s) = Some model /\
          llm_service (world (env s)) (backend_of model) (api_key_of model) prompt
            system_message = inr (Some code) /\
          str_format viewer_template
            [ (lit "dataset_name", str_of_opt (dataset_name (self s)));
              (lit "split", split);
              (lit "viewer_code", _clean_code uni_alnum code) ] = inr content /\
          callback_result (self s) (world (env s)) = (Ok tt, w2) /\
          env s' = mkEnv (with_files (<[p := content]> (files w2)) w2)
                     (trace (env s)
                      ++ [EvExists p; EvGenerateCode (backend_of model) prompt system_message]
                      ++ callback_events (self s)
                      ++ [EvOpenWrite p; EvWrite p content])
  | _ =>
      (model_calls (trace (env s')) <= S (model_calls (trace (env s))))%nat /\
      ((written_paths (trace (env s')) = written_paths (trace (env s)) /\
        (progress_callback (self s) = None -> world (env s') = world (env s)))
       \/
       exists p content w2 x remains,
         _get_viewer_path split s = (Ok p, s) /\
         callback_result (self s) (world (env s)) = (Ok tt, w2) /\
         write_failure w2 p content = Some (x, remains) /\
         r = Raise x /\
         world (env s') = with_files (<[p := remains]> (files w2)) w2 /\
         written_paths (trace (env s')) = written_paths (trace (env s)) ++ [p])
  end.
Proof.
  intros H. destruct s as [[d n m cb rd] [w t]].
  gv_open H.
  repeat gv_case H.
  all: apply pair_equal_spec in H; destruct H as [<- <-].
  all: try match goal with
         | E : str_format viewer_template
                 [(_, ?a); (_, ?b); (_, ?c)] = inl _ |- _ =>
             exfalso; destruct (viewer_template_fills a b c) as [? Hf];
             rewrite Hf in E; discriminate E
         end.
  all: (split; [reflexivity|]).
  all: unfold callback_result, callback_events;
       cbv beta iota zeta delta
         [self env world trace data llm dataset_name progress_callback dataset_readme
          fst snd].
  all: (split; [rewrite ?launched_app; cbn [launched flat_map app];
                rewrite ?List.app_nil_r; reflexivity|]).
  all: subst; repeat match goal with u : unit |- _ => destruct u end.
  all: (split; [first [discriminate 1 | intros _; eexists; eassumption]|]).
  all: try match goal with
         | |- (_ <= _)%nat /\ _ =>
             split;
             [rewrite ?model_calls_app; cbn [model_calls List.filter length app]; lia|];
             try (left; rewrite ?written_paths_app;
                  cbn [written_paths flat_map app]; rewrite ?List.app_nil_r;
                  split; [reflexivity|intros; congruence])
         end.
  all: try match goal with
         | E : _ && negb _ = _ |- _ => rewrite E
         end.
  all: try solve
         [ right;
           match goal with
           | Hf : write_failure ?w2 ?q ?content = Some (?x, ?rem) |- _ =>
               exists q, content, w2, x, rem;
               split; [reflexivity|]; split; [first [eassumption|reflexivity]|];
               split; [exact Hf|]; split; [reflexivity|]; split;
               [ unfold with_files;
                 cbn [environ files write_refused write_failure anthropic_installed
                      openai_installed hub_importable hub_load_dataset hub_download
                      llm_service spinner_done];
                 rewrite insert_insert_eq; reflexivity
               | rewrite !written_paths_app; cbn [written_paths flat_map app];
                 rewrite ?List.app_nil_r; reflexivity ]
           end ].
  - split; [reflexivity|]. split.
    + apply andb_true_iff in Heqb as [Hb _]. now apply bool_decide_eq_true_1 in Hb.
    + unfold cache_hit_events. now rewrite <- !app_assoc.
  - split; [reflexivity|]. split.
    + unfold with_files; cbn [files]. rewrite lookup_insert_eq. eexists; reflexivity.
    + match goal with
      | Hs : llm_service _ _ _ ?pr _ = inr (Some ?code),
        Hf : str_format viewer_template _ = inr ?content,
        Hc : c w = (_, ?w2) |- _ =>
          exists l, pr, code, content, w2;
          split; [reflexivity|]; split; [exact Hs|]; split; [exact Hf|];
          split; [exact Hc|]
      end.
      unfold with_files.
      cbn [environ files write_refused write_failure anthropic_installed openai_installed
           hub_importable hub_load_dataset hub_download llm_service spinner_done].
      rewrite insert_insert_eq. now rewrite <- !app_assoc.
  - split; [reflexivity|]. split.
    + unfold with_files; cbn [files]. rewrite lookup_insert_eq. eexists; reflexivity.
    + match goal with
      | Hs : llm_service _ _ _ ?pr _ = inr (Some ?code),
        Hf : str_format viewer_template _ = inr ?content |- _ =>
          exists l, pr, code, content, w;
          split; [reflexivity|]; split; [exact Hs|]; split; [exact Hf|];
          split; [reflexivity|]
      end.
      unfold with_files.
      cbn [environ files write_refused write_failure anthropic_installed openai_installed
           hub_importable hub_load_dataset hub_download llm_service spinner_done].
      rewrite insert_insert_eq. now rewrite <- !app_assoc.
Qed.

Lemma run_viewer_cases (s s' : State) (split extra : str) (force : bool) (r : outcome unit) :
  run_viewer uni_alnum json_dumps split extra force s = (r, s') ->
  self s' = self s /\
  match r with
  | Ok _ =>
      exists p,
        _get_viewer_path split s = (Ok p, s) /\
        is_Some (files (world (env s')) !! p) /\
        launched (trace (env s')) = launched (trace (env s)) ++ [lit "streamlit run " ++ p] /\
        model_calls (trace (env s'))
        = (model_calls (trace (env s))
           + if bool_decide (is_Some (files (world (env s)) !! p)) && negb force
             then 0 else 1)%nat
  | Raise _ => launched (trace (env s')) = launched (trace (env s))
  | Hang => exists w2, callback_result (self s) (world (env s)) = (Hang, w2)
  end.
Proof.
  intros H. unfold run_viewer in H.
  apply bind_inv in H as [(p & s1 & G & H)|[(x & G & ->)|[G ->]]].
  - apply gv_cases in G as (Hself & Hl & _ & Hp & Hf & G).
    unfold lift, os_system, log, modify in H.
    apply pair_equal_spec in H as [<- <-]. cbn [self env world trace].
    split; [exact Hself|]. exists p. split; [exact Hp|]. split; [exact Hf|].
    rewrite launched_app, Hl. split; [reflexivity|].
    rewrite model_calls_app. cbn [model_calls List.filter length].
    destruct (bool_decide _ && negb force).
    + rewrite G. cbn [trace]. rewrite model_calls_app. cbn. lia.
    + destruct G as (model & prompt & code & content & w2 & _ & _ & _ & _ & ->).
      cbn [trace]. rewrite !model_calls_app. unfold callback_events.
      destruct (progress_callback (self s)); cbn; lia.
  - apply gv_cases in G as (Hself & Hl & _ & _). now split.
  - apply gv_cases in G as (Hself & Hl & Hh & _). split; [exact Hself|]. now apply Hh.
Qed.

(** Whenever [generate_viewer] returns, it returns the derived viewer
    path and a file exists at that path; the viewer object is unchanged;
    and the call has written to that path alone, and not at all on a
    cache hit. *)
Theorem generate_viewer_returns_existing_file (s : State) (split extra : str) (force : bool) :
  self (snd (gv split extra force s)) = self s /\
  match fst (gv split extra force s) with
  | Ok p =>
      fst (_get_viewer_path split s) = Ok p /\
      is_Some (files (world (env (snd (gv split extra force s)))) !! p) /\
      written_paths (trace (env (snd (gv split extra force s))))
      = written_paths (trace (env s))
        ++ (if bool_decide (is_Some (files (world (env s)) !! p)) && negb force
            then [] else [p; p])
  | _ => True
  end.
Proof.
  destruct (gv split extra force s) as [r s'] eqn:G. cbn [fst snd].
  apply gv_cases in G as (Hself & _ & _ & G). split; [exact Hself|].
  destruct r as [p|x|]; [|exact I|exact I].
  destruct G as (Hp & Hf & G). rewrite Hp. split; [reflexivity|]. split; [exact Hf|].
  destruct (bool_decide _ && negb force).
  - rewrite G. cbn [trace]. rewrite written_paths_app. cbn. reflexivity.
  - destruct G as (model & prompt & code & content & w2 & _ & _ & _ & _ & ->).
    cbn [trace]. rewrite !written_paths_app. unfold callback_events.
    destruct (progress_callback (self s)); reflexivity.
Qed.

(** Whenever [generate_viewer] does not return a path, the model was
    asked at most once, and one of two things holds.  Either no file
    was opened or written, and without a progress callback the world
    is as before.  Or the viewer file was opened, and so emptied, and
    the write then failed on it: the exception of the write leaves the
    call, the file at the viewer path holds what the failed write
    left, its earlier content being lost, and no other path was
    written. *)
Theorem failed_generation_effects (s : State) (split extra : str) (force : bool) :
  match fst (gv split extra force s) with
  | Ok _ => True
  | _ =>
      (model_calls (trace (env (snd (gv split extra force s))))
       <= S (model_calls (trace (env s))))%nat /\
      ((written_paths (trace (env (snd (gv split extra force s))))
        = written_paths (trace (env s)) /\
        (progress_callback (self s) = None ->
         world (env (snd (gv split extra force s))) = world (env s)))
       \/
       exists p content w2 x remains,
         fst (_get_viewer_path split s) = Ok p /\
         callback_result (self s) (world (env s)) = (Ok tt, w2) /\
         write_failure w2 p content = Some (x, remains) /\
         fst (gv split extra force s) = Raise x /\
         world (env (snd (gv split extra force s)))
         = with_files (<[p := remains]> (files w2)) w2 /\
         written_paths (trace (env (snd (gv split extra force s))))
         = written_paths (trace (env s)) ++ [p])
  end.
Proof.
  destruct (gv split extra force s) as [r s'] eqn:G. cbn [fst snd].
  apply gv_cases in G as (_ & _ & _ & G).
  destruct r as [q|e|]; [exact I| |];
    destruct G as [Hc [G|(p & content & w2 & x & remains & Hp & Hcb & Hf & Hr & Hw & Hwp)]];
    (split; [exact Hc|]).
  - left. exact G.
  - right. exists p, content, w2, x, remains. rewrite Hp. cbn [fst].
    repeat (split; [first [reflexivity|assumption]|]). assumption.
  - left. exact G.
  - right. exists p, content, w2, x, remains. rewrite Hp. cbn [fst].
    repeat (split; [first [reflexivity|assumption]|]). assumption.
Qed.

(** After a generation the viewer file holds the answer of the model,
    cleaned and otherwise as it is, between the header filled from the
    dataset name and the split and the fixed closing lines that call
    [display_instance]. *)
Theorem generated_file_layout (s : State) (split extra p : str) (force : bool) :
  fst (gv split extra force s) = Ok p ->
  force = true \/ files (world (env s)) !! p = None ->
  exists model prompt code,
    llm (self s) = Some model /\
    llm_service (world (env s)) (backend_of model) (api_key_of model) prompt system_message
    = inr (Some code) /\
    files (world (env (snd (gv split extra force s)))) !! p
    = Some (viewer_header (str_of_opt (dataset_name (self s))) split
            ++ _clean_code uni_alnum code ++ viewer_trailer).
Proof.
  destruct (gv split extra force s) as [r s'] eqn:G. cbn [fst snd].
  intros -> Hmiss. apply gv_cases in G as (_ & _ & _ & _ & _ & G).
  rewrite (cache_miss_test _ _ _ Hmiss) in G.
  destruct G as (model & prompt & code & content & w2 & Hm & Hs & Hf & _ & ->).
  exists model, prompt, code. split; [exact Hm|]. split; [exact Hs|].
  cbn [world files with_files]. rewrite lookup_insert_eq. f_equal.
  rewrite viewer_template_layout in Hf. now injection Hf.
Qed.

(** [run_viewer] launches streamlit exactly when the generation returns,
    once, on the derived path, where a file then exists; when the
    generation fails or does not return, nothing is launched. *)
Theorem run_viewer_launches_generated_file (s : State) (split extra : str) (force : bool) :
  match fst (run_viewer uni_alnum json_dumps split extra force s) with
  | Ok _ =>
      exists p,
        fst (_get_viewer_path split s) = Ok p /\
        is_Some (files (world (env (snd (run_viewer uni_alnum json_dumps
                                           split extra force s)))) !! p) /\
        launched (trace (env (snd (run_viewer uni_alnum json_dumps split extra force s))))
        = launched (trace (env s)) ++ [lit "streamlit run " ++ p]
  | _ =>
      launched (trace (env (snd (run_viewer uni_alnum json_dumps split extra force s))))
      = launched (trace (env s))
  end.
Proof.
  destruct (run_viewer uni_alnum json_dumps split extra force s) as [r s'] eqn:G.
  cbn [fst snd]. pose proof G as G'.
  apply run_viewer_cases in G as [_ G]. destruct r as [u|x|].
  - destruct G as (p & Hp & Hf & Hl & _). exists p. now rewrite Hp.
  - exact G.
  - unfold run_viewer in G'.
    apply bind_inv in G' as [(q & s1 & G1 & H)|[(x & G1 & H)|[G1 _]]];
      [discriminate H|discriminate H|].
    now apply gv_cases in G1 as (_ & Hl & _).
Qed.
End ViewerRuns.

Lemma generated_file_layout_witness :
  exists model prompt code,
    llm (self sample_state) = Some model /\
    llm_service (world (env sample_state)) (backend_of model) (api_key_of model) prompt
      system_message = inr (Some code) /\
    files (world (env (snd (generate_viewer ascii_alnum flat_json (lit "train") [] true
                              sample_state)))) !! lit "view_mnist_train.py"
    = Some (viewer_header (str_of_opt (dataset_name (self sample_state))) (lit "train")
            ++ _clean_code ascii_alnum code ++ viewer_trailer).
Proof.
  apply (generated_file_layout ascii_alnum flat_json sample_state
           (lit "train") [] (lit "view_mnist_train.py") true).
  - vm_compute. reflexivity.
  - left. reflexivity.
Defined.

(** A write that fails on the opened file: the forced regeneration
    asks the model, empties the old viewer and ends with the error of
    the write; [main] reports that error, and nothing is launched. *)
Example failed_write_example :
  (let r := generate_viewer ascii_alnum flat_json (lit "train") [] true
              unencodable_state in
   fst r = Raise (ValueError (lit "'charmap' codec can't encode characters")) /\
   files (world (env unencodable_state)) !! lit "view_mnist_train.py"
   = Some (lit "# old viewer") /\
   files (world (env (snd r))) !! lit "view_mnist_train.py" = Some [] /\
   model_calls (trace (env (snd r))) = 1%nat /\
   written_paths (trace (env (snd r))) = [lit "view_mnist_train.py"]) /\
  (let r := main ascii_alnum quote_repr flat_json (lit "mnist") (lit "train") [] true
              (mkEnv unencodable_world []) in
   fst r = Raise (ClickException (lit "'charmap' codec can't encode characters")) /\
   files (world (snd r)) !! lit "view_mnist_train.py" = Some [] /\
   launched (trace (snd r)) = []).
Proof. repeat split; vm_compute; reflexivity. Qed.

(** ** The command line *)

Lemma launched_documentation (w : World) (url : str) :
  launched (snd (best_effort_documentation w url)) = [] /\
  model_calls (snd (best_effort_documentation w url)) = 0%nat.
Proof.
  unfold best_effort_documentation, read_documentation.
  destruct (hub_importable w); [|now split].
  destruct (hub_download w url (lit "README.md")) as [e1|p1].
  - destruct (hub_download w url (lit "dataset_card.md")) as [e2|p2]; [now split|].
    destruct (truthy p2); now split.
  - destruct (truthy p1); now split.
Qed.

Section Cli.
Variable uni_alnum : N -> bool.
Variable py_repr : str -> str.
Variable json_dumps : list (str * str) -> str.
Local Abbreviation gv := (generate_viewer uni_alnum json_dumps).

Lemma progress_done_returns (dv : DataViewer) (w : World) :
  progress_callback dv = Some progress_done ->
  callback_result dv w = (Ok tt, with_spinner_done true w).
Proof. intros H. unfold callback_result. now rewrite H. Qed.

(** the generation block of [main]: spinner, generation, join *)
Lemma generation_step (s sE : State) (og : outcome unit) (msg fg m1 m2 split prompt p : str)
      (force : bool) :
  progress_callback (self s) = Some progress_done ->
  _get_viewer_path split s = (Ok p, s) ->
  bool_decide (is_Some (files (world (env s)) !! p)) && negb force = false ->
  (lift (secho msg fg) ;;; lift (echo_spinner m1 m2) ;;;
   gv split prompt force ;;; lift spinner_join) s = (og, sE) ->
  self sE = self s /\
  match og with
  | Ok _ =>
      is_Some (files (world (env sE)) !! p) /\
      launched (trace (env sE)) = launched (trace (env s)) /\
      model_calls (trace (env sE)) = S (model_calls (trace (env s)))
  | Raise _ => launched (trace (env sE)) = launched (trace (env s))
  | Hang => False
  end.
Proof.
  intros Hcb Hp Hmiss H.
  rewrite (bind_Ok _ _ _ tt
             (mkState (self s) (mkEnv (world (env s)) (trace (env s) ++ [EvSecho msg fg]))))
    in H by reflexivity.
  rewrite (bind_Ok _ _ _ tt
             (mkState (self s)
                (mkEnv (with_spinner_done false (world (env s)))
                   ((trace (env s) ++ [EvSecho msg fg]) ++ [EvSpinnerStart m1 m2]))))
    in H by reflexivity.
  match type of H with bind _ _ ?s = _ => set (sC := s) in * end.
  assert (Hl : launched (trace (env sC)) = launched (trace (env s)) /\
               model_calls (trace (env sC)) = model_calls (trace (env s))).
  { unfold sC. cbn [env trace]. rewrite !launched_app, !model_calls_app. cbn.
    rewrite !List.app_nil_r. split; [reflexivity|lia]. }
  destruct Hl as [Hl Hc].
  assert (HpC : _get_viewer_path split sC = (Ok p, sC))
    by now apply (get_viewer_path_self s).
  apply bind_inv in H as [(q & sD & G & H)|[(x & G & ->)|[G ->]]].
  - apply gv_cases in G as (Hself & HlD & _ & Hq & Hf & G).
    rewrite HpC in Hq. apply pair_equal_spec in Hq as [Hq _]. injection Hq as <-.
    change (files (world (env sC))) with (files (world (env s))) in G.
    rewrite Hmiss in G.
    destruct G as (model & pr & code & content & w2 & _ & _ & _ & Hcall & HD).
    rewrite (progress_done_returns _ _ Hcb) in Hcall.
    apply pair_equal_spec in Hcall as [_ <-].
    unfold lift, spinner_join, bind, get_world, log, modify in H. rewrite HD in H.
    cbn [world trace spinner_done with_files with_spinner_done] in H.
    apply pair_equal_spec in H as [<- <-]. cbn [self env world trace].
    split; [exact Hself|]. split.
    { cbn [files with_files]. rewrite lookup_insert_eq. eexists; reflexivity. }
    rewrite !launched_app, !model_calls_app, Hl, Hc. unfold callback_events.
    change (progress_callback (self sC)) with (progress_callback (self s)).
    rewrite Hcb. cbn. rewrite !List.app_nil_r. split; [reflexivity|lia].
  - apply gv_cases in G as (Hself & HlD & _ & _). split; [exact Hself|]. now rewrite HlD.
  - apply gv_cases in G as (Hself & HlD & Hh & _). destruct (Hh eq_refl) as [w2 Hw].
    rewrite (progress_done_returns _ _ Hcb) in Hw. discriminate Hw.
Qed.

(** the launch block of [main] *)
Lemma launch_step (s sE : State) (og : outcome unit) (msg fg split prompt p : str)
      (force : bool) :
  progress_callback (self s) = Some progress_done ->
  _get_viewer_path split s = (Ok p, s) ->
  (lift (secho msg fg) ;;; run_viewer uni_alnum json_dumps split prompt force) s = (og, sE) ->
  match og with
  | Ok _ =>
      is_Some (files (world (env sE)) !! p) /\
      launched (trace (env sE)) = launched (trace (env s)) ++ [lit "streamlit run " ++ p] /\
      model_calls (trace (env sE))
      = (model_calls (trace (env s))
         + if bool_decide (is_Some (files (world (env s)) !! p)) && negb force
           then 0 else 1)%nat
  | Raise _ => launched (trace (env sE)) = launched (trace (env s))
  | Hang => False
  end.
Proof.
  intros Hcb Hp H.
  rewrite (bind_Ok _ _ _ tt
             (mkState (self s) (mkEnv (world (env s)) (trace (env s) ++ [EvSecho msg fg]))))
    in H by reflexivity.
  match type of H with _ ?s = _ => set (sC := s) in * end.
  assert (Hl : launched (trace (env sC)) = launched (trace (env s)) /\
               model_calls (trace (env sC)) = model_calls (trace (env s))).
  { unfold sC. cbn [env trace]. rewrite !launched_app, !model_calls_app. cbn.
    rewrite !List.app_nil_r. split; [reflexivity|lia]. }
  destruct Hl as [Hl Hc].
  assert (HpC : _get_viewer_path split sC = (Ok p, sC))
    by now apply (get_viewer_path_self s).
  apply run_viewer_cases in H as [Hself H]. destruct og as [u|x|].
  - destruct H as (q & Hq & Hf & HlE & HcE).
    rewrite HpC in Hq. apply pair_equal_spec in Hq as [Hq _]. injection Hq as <-.
    split; [exact Hf|]. rewrite HlE, HcE, Hl, Hc. split; reflexivity.
  - now rewrite H.
  - destruct H as [w2 Hw]. rewrite (progress_done_returns _ _ Hcb) in Hw. discriminate Hw.
Qed.

(** the outcomes of [main], case by case *)
Lemma main_cases (url split prompt : str) (force : bool) (e e' : Env) (r : outcome unit) :
  main uni_alnum py_repr json_dumps url split prompt force e = (r, e') ->
  match r with
  | Ok _ =>
      is_Some (files (world e') !! viewer_path_of url split) /\
      launched (trace e')
      = launched (trace e) ++ [lit "streamlit run " ++ viewer_path_of url split] /\
      model_calls (trace e')
      = (model_calls (trace e)
         + if force then 2
           else if bool_decide (is_Some (files (world e) !! viewer_path_of url split))
                then 0 else 1)%nat
  | Raise x =>
      (exists msg, x = ClickException msg) /\
      launched (trace e') = launched (trace e)
  | Hang => False
  end.
Proof.
  intros H. unfold main, try_except in H.
  match type of H with
  | context [match ?b with _ => _ end] => destruct b as [o e1] eqn:Hb
  end.
  assert (K : match o with
              | Ok _ =>
                  is_Some (files (world e1) !! viewer_path_of url split) /\
                  launched (trace e1)
                  = launched (trace e) ++ [lit "streamlit run " ++ viewer_path_of url split] /\
                  model_calls (trace e1)
                  = (model_calls (trace e)
                     + if force then 2
                       else if bool_decide
                                 (is_Some (files (world e) !! viewer_path_of url split))
                            then 0 else 1)%nat
              | Raise _ => launched (trace e1) = launched (trace e)
              | Hang => False
              end).
  { clear H.
    rewrite (bind_Ok _ _ _ tt (mkEnv (world e) (trace e ++ [EvSecho _ _]))) in Hb
      by reflexivity.
    match type of Hb with bind _ _ ?e0 = _ => set (e0' := e0) in * end.
    destruct (from_environment_cases e0') as [[x Hx]|[model Hm]].
    { rewrite (bind_Raise _ _ _ _ _ Hx) in Hb. apply pair_equal_spec in Hb as [<- <-].
      unfold e0'. cbn [trace]. rewrite launched_app. cbn. now rewrite List.app_nil_r. }
    rewrite (bind_Ok _ _ _ _ _ Hm) in Hb.
    match type of Hb with
    | context [call _ ?inner] =>
        assert (Ki : forall oi s1,
          inner (mkState (DataViewer_init (Some model)) e0') = (oi, s1) ->
      match oi with
      | Ok _ =>
          is_Some (files (world (env s1)) !! viewer_path_of url split) /\
          launched (trace (env s1))
          = launched (trace e) ++ [lit "streamlit run " ++ viewer_path_of url split] /\
          model_calls (trace (env s1))
          = (model_calls (trace e)
             + if force then 2
               else if bool_decide
                         (is_Some (files (world e) !! viewer_path_of url split))
                    then 0 else 1)%nat
      | Raise _ => launched (trace (env s1)) = launched (trace e)
      | Hang => False
      end)
    end.
    { clear Hb Hm. intros oi s1 Hi.
      rewrite (bind_Ok _ _ _ tt
                 (mkState (set_callback (Some progress_done) (DataViewer_init (Some model)))
                    e0')) in Hi by reflexivity.
      rewrite (bind_Ok _ _ _ tt
                 (mkState (set_callback (Some progress_done) (DataViewer_init (Some model)))
                    (mkEnv (world e) (trace e0' ++ [EvSecho _ _])))) in Hi by reflexivity.
      match type of Hi with bind _ _ ?s = _ => set (s2 := s) in * end.
      pose proof (load_dataset_result s2 url) as Hl.
      change (world (env s2)) with (world e) in Hl.
      destruct (hub_load_dataset (world e) url) as [x|d].
      { rewrite (bind_Raise _ _ _ _ _ Hl) in Hi. apply pair_equal_spec in Hi as [<- <-].
        unfold s2, e0'. cbn [env trace]. rewrite !launched_app. cbn.
        now rewrite !List.app_nil_r. }
      rewrite (bind_Ok _ _ _ _ _ Hl) in Hi. clear Hl.
      match type of Hi with bind _ _ ?s = _ => set (s3 := s) in * end.
      assert (Hp : _get_viewer_path split s3 = (Ok (viewer_path_of url split), s3))
        by (rewrite get_viewer_path_run; reflexivity).
      rewrite (bind_Ok _ _ _ _ _ Hp) in Hi.
      assert (Hl3 : launched (trace (env s3)) = launched (trace e) /\
                    model_calls (trace (env s3)) = model_calls (trace e)).
      { unfold s3, s2, e0'. cbn [env trace world].
        change (?a ++ ?x :: ?l) with (a ++ [x] ++ l).
        rewrite !launched_app, !model_calls_app.
        destruct (launched_documentation (world e) url) as [-> ->]. cbn.
        rewrite !List.app_nil_r. split; [reflexivity|lia]. }
      assert (Hw3 : world (env s3) = world e) by reflexivity.
      assert (Hcb3 : progress_callback (self s3) = Some progress_done) by reflexivity.
      destruct Hl3 as [Hl3 Hc3]. clearbody s3. clear s2.
      set (p := viewer_path_of url split) in *.
      destruct force.
      - rewrite (bind_Ok _ _ _ true s3) in Hi by reflexivity.
        apply bind_inv in Hi as [(u & sE & G & Hi)|[(x & G & ->)|[G ->]]].
        + eapply generation_step in G as [HselfE (HfE & HlE & HcE)];
            [|exact Hcb3|exact Hp|apply andb_false_r].
          eapply launch_step in Hi;
            [|rewrite HselfE; exact Hcb3|apply (get_viewer_path_self s3 sE _ _ HselfE Hp)].
          destruct oi as [v|x|]; [|now rewrite Hi, HlE|exact Hi].
          destruct Hi as (Hf & Hl & Hc). split; [exact Hf|].
          rewrite Hl, Hc, HlE, HcE, Hl3, Hc3, andb_false_r. split; [reflexivity|lia].
        + eapply generation_step in G as [_ G]; [|exact Hcb3|exact Hp|apply andb_false_r].
          now rewrite G.
        + eapply generation_step in G as [_ G]; [|exact Hcb3|exact Hp|apply andb_false_r].
          exact G.
      - rewrite (bind_Ok _ _ _ (negb (bool_decide (is_Some (files (world (env s3)) !! p))))
                   (mkState (self s3)
                      (mkEnv (world (env s3)) (trace (env s3) ++ [EvExists p]))))
          in Hi by reflexivity.
        match type of Hi with bind _ _ ?s = _ => set (sX := s) in * end.
        assert (HlX : launched (trace (env sX)) = launched (trace e) /\
                      model_calls (trace (env sX)) = model_calls (trace e)).
        { unfold sX. cbn [env trace]. rewrite !launched_app, !model_calls_app, Hl3, Hc3.
          cbn. rewrite !List.app_nil_r. split; [reflexivity|lia]. }
        destruct HlX as [HlX HcX].
        assert (HpX : _get_viewer_path split sX = (Ok p, sX))
          by now apply (get_viewer_path_self s3).
        assert (HcbX : progress_callback (self sX) = Some progress_done) by exact Hcb3.
        assert (HwX : world (env sX) = world (env s3)) by reflexivity.
        rewrite <- Hw3. rewrite <- HwX in *. clearbody sX.
        destruct (bool_decide (is_Some (files (world (env sX)) !! p))) eqn:Hfound;
          cbn [negb] in Hi.
        + apply bind_inv in Hi as [(u & sE & G & Hi)|[(x & G & ->)|[G ->]]];
            [|discriminate G|discriminate G].
          unfold lift, secho, log, modify in G. apply pair_equal_spec in G as [_ <-].
          eapply launch_step in Hi;
            [|exact HcbX|apply (get_viewer_path_self sX); [reflexivity|exact HpX]].
          cbn [env world trace] in Hi. rewrite Hfound in Hi. cbn [andb negb] in Hi.
          rewrite !launched_app, !model_calls_app, HlX, HcX in Hi. cbn in Hi.
          rewrite !List.app_nil_r in Hi.
          destruct oi as [v|x|]; [|exact Hi|exact Hi].
          destruct Hi as (Hf & Hl & Hc). split; [exact Hf|]. split; [exact Hl|]. lia.
        + apply bind_inv in Hi as [(u & sE & G & Hi)|[(x & G & ->)|[G ->]]].
          * eapply generation_step in G as [HselfE (HfE & HlE & HcE)];
              [|exact HcbX|exact HpX|now rewrite Hfound].
            eapply launch_step in Hi;
              [|rewrite HselfE; exact HcbX|apply (get_viewer_path_self sX sE _ _ HselfE HpX)].
            destruct oi as [v|x|]; [|now rewrite Hi, HlE|exact Hi].
            destruct Hi as (Hf & Hl & Hc). split; [exact Hf|].
            rewrite Hl, Hc, HlE, HcE, HlX, HcX.
            rewrite (bool_decide_eq_true_2 _ HfE). cbn [andb negb].
            split; [reflexivity|lia].
          * eapply generation_step in G as [_ G]; [|exact HcbX|exact HpX|now rewrite Hfound].
            now rewrite G.
          * eapply generation_step in G as [_ G]; [|exact HcbX|exact HpX|now rewrite Hfound].
            exact G. }
    apply bind_inv in Hb as [(a & e2 & Hc & Hb)|[(x & Hc & ->)|[Hc ->]]];
      unfold call in Hc;
      match type of Hc with
      | context [match ?b with _ => _ end] => destruct b as [oi s1] eqn:Hi
      end;
      clear Hi; pose proof (Ki _ _ eq_refl) as Hi; clear Ki; destruct oi as [v|y|];
      apply pair_equal_spec in Hc as [E1 E2]; try discriminate E1; subst.
    - apply pair_equal_spec in Hb as [<- <-]. exact Hi.
    - exact Hi.
    - exact Hi. }
  destruct o as [u|x|].
  - apply pair_equal_spec in H as [<- <-]. exact K.
  - destruct (is_ValueError x); apply pair_equal_spec in H as [<- <-];
      (split; [eexists; reflexivity|exact K]).
  - destruct K.
Qed.

(** [main] never waits for the spinner for ever: the join is reached
    only after the progress callback has set the flag.  Every failure
    leaves [main] as a [ClickException], and then streamlit was not
    launched. *)
Theorem main_reports_every_failure (url split prompt : str) (force : bool) (e : Env) :
  match fst (main uni_alnum py_repr json_dumps url split prompt force e) with
  | Ok _ => True
  | Raise x =>
      (exists msg, x = ClickException msg) /\
      launched (trace (snd (main uni_alnum py_repr json_dumps url split prompt force e)))
      = launched (trace e)
  | Hang => False
  end.
Proof.
  destruct (main uni_alnum py_repr json_dumps url split prompt force e) as [r e'] eqn:H.
  apply main_cases in H. cbn [fst snd]. destruct r; [exact I|exact H|exact H].
Qed.

(** When [main] returns, streamlit was launched once, on the viewer path
    of the dataset and the split, where a file exists.  With [--force]
    the model was asked twice, once by the generation of [main] and once
    more by [run_viewer]; without it, once when the file was missing and
    not at all when it was there. *)
Theorem main_success (url split prompt : str) (force : bool) (e : Env) :
  match fst (main uni_alnum py_repr json_dumps url split prompt force e) with
  | Ok _ =>
      is_Some (files (world (snd (main uni_alnum py_repr json_dumps url split prompt
                                    force e))) !! viewer_path_of url split) /\
      launched (trace (snd (main uni_alnum py_repr json_dumps url split prompt force e)))
      = launched (trace e) ++ [lit "streamlit run " ++ viewer_path_of url split] /\
      model_calls (trace (snd (main uni_alnum py_repr json_dumps url split prompt force e)))
      = (model_calls (trace e)
         + if force then 2
           else if bool_decide (is_Some (files (world e) !! viewer_path_of url split))
                then 0 else 1)%nat
  | _ => True
  end.
Proof.
  destruct (main uni_alnum py_repr json_dumps url split prompt force e) as [r e'] eqn:H.
  apply main_cases in H. cbn [fst snd]. destruct r; [exact H|exact I|exact I].
Qed.
End Cli.

(** [main] on the sample: with [--force] the model is asked twice;
    without it and with the viewer file present it is not asked; on a
    split without rows the failure is reported and nothing is launched. *)
Example main_examples :
  (let r := main ascii_alnum quote_repr flat_json (lit "mnist") (lit "train") [] true
              (mkEnv sample_world []) in
   fst r = Ok tt /\ model_calls (trace (snd r)) = 2%nat /\
   launched (trace (snd r)) = [lit "streamlit run view_mnist_train.py"]) /\
  (let r := main ascii_alnum quote_repr flat_json (lit "mnist") (lit "train") [] false
              (mkEnv sample_world []) in
   fst r = Ok tt /\ model_calls (trace (snd r)) = 0%nat /\
   launched (trace (snd r)) = [lit "streamlit run view_mnist_train.py"]) /\
  (let r := main ascii_alnum quote_repr flat_json (lit "mnist") (lit "test") [] false
              (mkEnv fresh_world []) in
   fst r = Raise (ClickException
                    (lit "Error: Invalid key: 0 is out of bounds for size 0")) /\
   model_calls (trace (snd r)) = 0%nat /\ launched (trace (snd r)) = []).
Proof. repeat split; vm_compute; reflexivity. Qed.

(** ** Navigation in the generated viewer, continued *)

(** On a split with rows, Next and Previous always land on a valid
    index, and from a valid index each undoes the other. *)
Theorem navigation_keeps_index_valid (n i : Z) :
  (0 < n)%Z ->
  (exists j, on_next i n = inr j /\ (0 <= j < n)%Z) /\
  (exists j, on_previous i n = inr j /\ (0 <= j < n)%Z) /\
  ((0 <= i < n)%Z ->
   (exists j, on_next i n = inr j /\ on_previous j n = inr i) /\
   (exists j, on_previous i n = inr j /\ on_next j n = inr i)).
Proof.
  intros Hn.
  assert (Hz : (n =? 0)%Z = false) by (apply Z.eqb_neq; lia).
  unfold on_next, on_previous, py_mod. rewrite Hz.
  split; [|split].
  - eexists; split; [reflexivity|]. apply Z.mod_pos_bound; lia.
  - eexists; split; [reflexivity|]. apply Z.mod_pos_bound; lia.
  - intros Hi. split; eexists; (split; [reflexivity|]); f_equal.
    + rewrite Zminus_mod_idemp_l. replace (i + 1 - 1)%Z with i by lia.
      apply Z.mod_small; lia.
    + rewrite Zplus_mod_idemp_l. replace (i - 1 + 1)%Z with i by lia.
      apply Z.mod_small; lia.
Qed.

Lemma navigation_keeps_index_valid_witness :
  (exists j, on_next 2 3 = inr j /\ (0 <= j < 3)%Z) /\
  (exists j, on_previous 2 3 = inr j /\ (0 <= j < 3)%Z) /\
  ((0 <= 2 < 3)%Z ->
   (exists j, on_next 2 3 = inr j /\ on_previous j 3 = inr 2%Z) /\
   (exists j, on_previous 2 3 = inr j /\ on_next j 3 = inr 2%Z)).
Proof. apply (navigation_keeps_index_valid 3 2). lia. Defined.

(** On a split without rows every navigation button fails: Next and
    Previous divide by zero, and Random asks for a number from an empty
    range. *)
Theorem navigation_on_empty_split (i : Z) :
  (exists e, on_next i 0 = inl (ZeroDivisionError e)) /\
  (exists e, on_previous i 0 = inl (ZeroDivisionError e)) /\
  (exists e, on_random 0 = inl (ValueError e)).
Proof. repeat split; eexists; reflexivity. Qed.
